(** * Golden-cross backtest engine: a shallow embedding

    This development embeds [backtest.py] (class [BacktestEngine]), the signal
    rules of [trading_strategy.py] ([GoldenCrossStrategy.generate_signals],
    [should_buy], [should_sell]) and the constants of [config.py].

    Modelling choices.
    - Python floats are modelled by exact rationals [Q]; rounding is not
      modelled, and a quotient by zero, which is [inf] or [nan] on numpy
      floats, is 0 in [Q].  NaN cells of a pandas column are [None] in an
      [option Q] cell, and every comparison with a NaN cell is false, as in
      pandas.
    - The engine object is a record threaded explicitly through the methods.
    - The two ledger operations, of the form
      [try: body except Exception: log], are a body with an [outcome] and a
      handler that returns normally.  No statement of either body raises on
      rational inputs.
    - The [ta] and [numpy] packages are not part of the repository: the
      functions taken from them are fields of the [Libs] record, a parameter
      of whatever uses them.

    The later sections embed the position kept by the strategy
    ([trading_strategy.py]), [calculate_order_amount] of
    [binance_client.py], the methods of [trading_engine.py] that change the
    engine, and the checks of [monitor.py].
    - What the exchange answers during one call is an [Exchange] record, a
      parameter of the call; a failed request is [None].
    - The clock is read once for each call, in whole seconds.
    - An alert timestamp is a [datetime] or the ISO string that
      [save_monitoring_data] writes in its place. *)

From Stdlib Require Import String List ZArith QArith Qabs Bool Lia Lqa PeanoNat.
Import ListNotations.
Open Scope Q_scope.

(** ** config.py *)

Module Config.
Definition SHORT_MA_PERIOD : nat := 10.
Definition LONG_MA_PERIOD : nat := 30.
Definition STOP_LOSS_PERCENT : Q := 2.
Definition TAKE_PROFIT_PERCENT : Q := 5.
Definition INITIAL_BALANCE : Q := 10000.
Definition TRADE_AMOUNT : Q := 1 # 1000.
End Config.

(** ** Numbers *)

(** The four strict and inclusive comparisons of Python floats. *)
Definition Qleb (a b : Q) : bool := Qle_bool a b.
Definition Qgeb (a b : Q) : bool := Qle_bool b a.
Definition Qgtb (a b : Q) : bool := negb (Qle_bool a b).
Definition Qltb (a b : Q) : bool := negb (Qle_bool b a).

(** Python's [sum] and [abs]. *)
Definition Qsum (l : list Q) : Q := fold_left Qplus l 0.

(** ** Outcomes of a method body *)

(** Exceptions a method body could raise. *)
Inductive exn : Type :=
| ZeroDivisionError
| IndexError
| KeyError
| OtherException.

Inductive outcome (A : Type) : Type :=
| Returned (a : A)
| Raised (e : exn).
Arguments Returned {A} a.
Arguments Raised {A} e.

(** ** Records of the ledger *)

Inductive side : Type := long | short.

Inductive trade_type : Type := buy | sell.

(** A trade dict.  The key ['profit'] exists on sell records only. *)
Module Trade.
Record t : Type := mk {
  timestamp : Z;
  type : trade_type;
  price : Q;
  size : Q;
  amount : Q;
  profit : option Q;
  balance : Q
}.
End Trade.

(** A point of the equity curve. *)
Module Equity.
Record t : Type := mk {
  timestamp : Z;
  equity : Q;
  price : Q
}.
End Equity.

(** The [results] dict. *)
Record Results : Type := mkResults {
  total_trades : Z;
  winning_trades : Z;
  losing_trades : Z;
  total_return : Q;
  max_drawdown : Q;
  sharpe_ratio : Q;
  win_rate : Q;
  profit_factor : Q
}.

(** The fields of a [BacktestEngine] object. *)
Record Engine : Type := mkEngine {
  initial_balance : Q;
  balance : Q;
  position : option side;
  position_size : Q;
  entry_price : Q;
  trades : list Trade.t;
  equity_curve : list Equity.t;
  results : Results
}.

(** Truth value of [self.position]: [None] is false, a string is true. *)
Definition has_position (e : Engine) : bool :=
  match position e with
  | Some _ => true
  | None => false
  end.

(** [BacktestEngine.__init__] *)
Definition init (initial_balance : Q) : Engine :=
  {| initial_balance := initial_balance;
     balance := initial_balance;
     position := None;
     position_size := 0;
     entry_price := 0;
     trades := [];
     equity_curve := [];
     results := {| total_trades := 0%Z;
                   winning_trades := 0%Z;
                   losing_trades := 0%Z;
                   total_return := 0;
                   max_drawdown := 0;
                   sharpe_ratio := 0;
                   win_rate := 0;
                   profit_factor := 0 |} |}.

(** ** Ledger operations *)

(** Body of [execute_buy]: no guard on the current position. *)
Definition execute_buy_body (e : Engine) (price : Q) (timestamp : Z)
  : outcome Engine :=
  let trade_amount := balance e * (9 # 10) in
  let position_size' := trade_amount / price in
  let balance' := balance e - trade_amount in
  let trade := {| Trade.timestamp := timestamp;
                  Trade.type := buy;
                  Trade.price := price;
                  Trade.size := position_size';
                  Trade.amount := trade_amount;
                  Trade.profit := None;
                  Trade.balance := balance' |} in
  Returned {| initial_balance := initial_balance e;
              balance := balance';
              position := Some long;
              position_size := position_size';
              entry_price := price;
              trades := trades e ++ [trade];
              equity_curve := equity_curve e;
              results := results e |}.

(** [execute_buy]: the handler logs and returns. *)
Definition execute_buy (e : Engine) (price : Q) (timestamp : Z) : Engine :=
  match execute_buy_body e price timestamp with
  | Returned e' => e'
  | Raised _ => e
  end.

(** The counter updates of [execute_sell]. *)
Definition count_sell (r : Results) (profit : Q) : Results :=
  {| total_trades := total_trades r + 1;
     winning_trades :=
       if Qgtb profit 0 then (winning_trades r + 1)%Z else winning_trades r;
     losing_trades :=
       if Qgtb profit 0 then losing_trades r else (losing_trades r + 1)%Z;
     total_return := total_return r;
     max_drawdown := max_drawdown r;
     sharpe_ratio := sharpe_ratio r;
     win_rate := win_rate r;
     profit_factor := profit_factor r |}.

(** Body of [execute_sell]: returns at once when no position is open. *)
Definition execute_sell_body (e : Engine) (price : Q) (timestamp : Z)
  : outcome Engine :=
  match position e with
  | None => Returned e
  | Some s =>
      let trade_amount := position_size e * price in
      let balance' := balance e + trade_amount in
      let profit :=
        match s with
        | long => trade_amount - position_size e * entry_price e
        | short => position_size e * entry_price e - trade_amount
        end in
      let trade := {| Trade.timestamp := timestamp;
                      Trade.type := sell;
                      Trade.price := price;
                      Trade.size := position_size e;
                      Trade.amount := trade_amount;
                      Trade.profit := Some profit;
                      Trade.balance := balance' |} in
      Returned {| initial_balance := initial_balance e;
                  balance := balance';
                  position := None;
                  position_size := 0;
                  entry_price := 0;
                  trades := trades e ++ [trade];
                  equity_curve := equity_curve e;
                  results := count_sell (results e) profit |}
  end.

(** [execute_sell]: the handler logs and returns. *)
Definition execute_sell (e : Engine) (price : Q) (timestamp : Z) : Engine :=
  match execute_sell_body e price timestamp with
  | Returned e' => e'
  | Raised _ => e
  end.

(** Stop-loss and take-profit prices of a long entry. *)
Definition stop_loss_price (entry : Q) : Q :=
  entry * (1 - Config.STOP_LOSS_PERCENT / 100).

Definition take_profit_price (entry : Q) : Q :=
  entry * (1 + Config.TAKE_PROFIT_PERCENT / 100).

(** [check_exit_conditions]: the returned flag and the engine afterwards. *)
Definition check_exit_conditions (e : Engine) (current_price : Q)
    (timestamp : Z) : bool * Engine :=
  match position e with
  | None => (false, e)
  | Some long =>
      let stop_loss := stop_loss_price (entry_price e) in
      let take_profit := take_profit_price (entry_price e) in
      if Qleb current_price stop_loss || Qgeb current_price take_profit
      then (true, execute_sell e current_price timestamp)
      else (false, e)
  | Some short => (false, e)
  end.

(** [update_equity_curve] *)
Definition update_equity_curve (e : Engine) (current_price : Q)
    (timestamp : Z) : Engine :=
  let current_equity :=
    match position e with
    | Some long => balance e + position_size e * current_price
    | Some short => balance e - position_size e * current_price
    | None => balance e
    end in
  {| initial_balance := initial_balance e;
     balance := balance e;
     position := position e;
     position_size := position_size e;
     entry_price := entry_price e;
     trades := trades e;
     equity_curve := equity_curve e ++
       [{| Equity.timestamp := timestamp;
           Equity.equity := current_equity;
           Equity.price := current_price |}];
     results := results e |}.

(** ** Market data and external libraries *)

(** An OHLCV candle, one row of the frame of [get_historical_data]. *)
Record Candle : Type := mkCandle {
  timestamp : Z;
  open : Q;
  high : Q;
  low : Q;
  close : Q;
  volume : Q
}.

(** A cell of a float column: [None] is NaN. *)
Definition cell : Type := option Q.

(** A row after [calculate_indicators]. *)
Record Row : Type := mkRow {
  ohlcv : Candle;
  MA_short : cell;
  MA_long : cell;
  RSI : cell;
  BB_upper : cell;
  BB_lower : cell;
  BB_middle : cell;
  MACD : cell;
  MACD_signal : cell;
  MACD_histogram : cell;
  Volume_MA : cell
}.

(** What the engine takes from [ta] and [numpy]. *)
Record Libs : Type := mkLibs {
  calculate_indicators : list Candle -> list Row;
  np_mean : list Q -> Q;
  np_std : list Q -> Q;
  np_sqrt : Q -> Q
}.

(** ** Statistics *)

Definition with_results (e : Engine) (r : Results) : Engine :=
  {| initial_balance := initial_balance e;
     balance := balance e;
     position := position e;
     position_size := position_size e;
     entry_price := entry_price e;
     trades := trades e;
     equity_curve := equity_curve e;
     results := r |}.

Definition set_total_return (r : Results) (v : Q) : Results :=
  mkResults (total_trades r) (winning_trades r) (losing_trades r)
            v (max_drawdown r) (sharpe_ratio r) (win_rate r) (profit_factor r).

Definition set_max_drawdown (r : Results) (v : Q) : Results :=
  mkResults (total_trades r) (winning_trades r) (losing_trades r)
            (total_return r) v (sharpe_ratio r) (win_rate r) (profit_factor r).

Definition set_sharpe_ratio (r : Results) (v : Q) : Results :=
  mkResults (total_trades r) (winning_trades r) (losing_trades r)
            (total_return r) (max_drawdown r) v (win_rate r) (profit_factor r).

Definition set_win_rate (r : Results) (v : Q) : Results :=
  mkResults (total_trades r) (winning_trades r) (losing_trades r)
            (total_return r) (max_drawdown r) (sharpe_ratio r) v (profit_factor r).

Definition set_profit_factor (r : Results) (v : Q) : Results :=
  mkResults (total_trades r) (winning_trades r) (losing_trades r)
            (total_return r) (max_drawdown r) (sharpe_ratio r) (win_rate r) v.

(** One turn of the loop of [calculate_max_drawdown] on [(peak, max_dd)]. *)
Definition drawdown_step (acc : Q * Q) (equity : Q) : Q * Q :=
  let peak := if Qgtb equity (fst acc) then equity else fst acc in
  let drawdown := (peak - equity) / peak * 100 in
  (peak, if Qgtb drawdown (snd acc) then drawdown else snd acc).

(** [calculate_max_drawdown] *)
Definition calculate_max_drawdown (e : Engine) : Engine :=
  match map Equity.equity (equity_curve e) with
  | [] => e
  | first :: rest =>
      let max_dd := snd (fold_left drawdown_step (first :: rest) (first, 0)) in
      with_results e (set_max_drawdown (results e) max_dd)
  end.

(** The per-step returns of an equity series whose previous value is
    [prev]. *)
Fixpoint step_returns (prev : Q) (rest : list Q) : list Q :=
  match rest with
  | [] => []
  | curr :: tl => (curr - prev) / prev :: step_returns curr tl
  end.

(** [calculate_sharpe_ratio] *)
Definition calculate_sharpe_ratio (libs : Libs) (e : Engine) : Engine :=
  if (length (equity_curve e) <? 2)%nat then e
  else
    let returns :=
      match map Equity.equity (equity_curve e) with
      | [] => []
      | first :: rest => step_returns first rest
      end in
    match returns with
    | [] => e
    | _ :: _ =>
        let mean_return := np_mean libs returns in
        let std_return := np_std libs returns in
        if Qgtb std_return 0
        then with_results e
               (set_sharpe_ratio (results e)
                  (mean_return / std_return * np_sqrt libs 252))
        else e
    end.

(** The list [winning_profits] built by [calculate_profit_factor]. *)
Fixpoint winning_profits (ts : list Trade.t) : list Q :=
  match ts with
  | [] => []
  | t :: rest =>
      match Trade.type t, Trade.profit t with
      | sell, Some p =>
          if Qgtb p 0 then p :: winning_profits rest else winning_profits rest
      | _, _ => winning_profits rest
      end
  end.

(** The list [losing_profits] built by [calculate_profit_factor]. *)
Fixpoint losing_profits (ts : list Trade.t) : list Q :=
  match ts with
  | [] => []
  | t :: rest =>
      match Trade.type t, Trade.profit t with
      | sell, Some p =>
          if Qgtb p 0 then losing_profits rest
          else Qabs p :: losing_profits rest
      | _, _ => losing_profits rest
      end
  end.

Definition total_wins (ts : list Trade.t) : Q :=
  match winning_profits ts with
  | [] => 0
  | w => Qsum w
  end.

Definition total_losses (ts : list Trade.t) : Q :=
  match losing_profits ts with
  | [] => 0
  | l => Qsum l
  end.

(** [calculate_profit_factor]: writes the result only under its guard. *)
Definition calculate_profit_factor (e : Engine) : Engine :=
  if Qgtb (total_losses (trades e)) 0
  then with_results e
         (set_profit_factor (results e)
            (total_wins (trades e) / total_losses (trades e)))
  else e.

(** [calculate_results] *)
Definition calculate_results (libs : Libs) (e : Engine) : Engine :=
  match trades e with
  | [] => e
  | _ :: _ =>
      let e1 := with_results e
        (set_total_return (results e)
           ((balance e - initial_balance e) / initial_balance e * 100)) in
      let e2 :=
        if (0 <? total_trades (results e1))%Z
        then with_results e1
               (set_win_rate (results e1)
                  (inject_Z (winning_trades (results e1))
                   / inject_Z (total_trades (results e1)) * 100))
        else e1 in
      calculate_profit_factor
        (calculate_sharpe_ratio libs (calculate_max_drawdown e2))
  end.

(** ** trading_strategy.py: signals *)

Record GoldenCrossStrategy : Type := mkStrategy {
  short_period : nat;
  long_period : nat
}.

(** Element-wise operations on pandas columns. *)
Fixpoint map2 {A B C : Type} (f : A -> B -> C) (la : list A) (lb : list B)
  : list C :=
  match la, lb with
  | a :: la', b :: lb' => f a b :: map2 f la' lb'
  | _, _ => []
  end.

(** A comparison of two cells is false as soon as one of them is NaN. *)
Definition cmp (f : Q -> Q -> bool) (a b : cell) : bool :=
  match a, b with
  | Some x, Some y => f x y
  | _, _ => false
  end.

Definition series_gt (a b : list cell) : list bool := map2 (cmp Qgtb) a b.
Definition series_lt (a b : list cell) : list bool := map2 (cmp Qltb) a b.
Definition series_ge (a b : list cell) : list bool := map2 (cmp Qgeb) a b.
Definition series_le (a b : list cell) : list bool := map2 (cmp Qleb) a b.
Definition series_and (a b : list bool) : list bool := map2 andb a b.
Definition series_or (a b : list bool) : list bool := map2 orb a b.
Definition series_not (a : list bool) : list bool := map negb a.

(** Comparison and product of a column with a constant. *)
Definition series_gt_const (a : list cell) (c : Q) : list bool :=
  map (fun x => cmp Qgtb x (Some c)) a.
Definition series_lt_const (a : list cell) (c : Q) : list bool :=
  map (fun x => cmp Qltb x (Some c)) a.
Definition series_mul_const (a : list cell) (c : Q) : list cell :=
  map (option_map (fun x => x * c)) a.

(** [Series.shift(1)]: every value moves one row down, the first row
    becomes NaN and the last value is dropped. *)
Definition shift (s : list cell) : list cell :=
  match s with
  | [] => []
  | _ :: _ => None :: removelast s
  end.

(** Columns of the frame. *)
Definition col (f : Row -> cell) (df : list Row) : list cell := map f df.
Definition col_close (df : list Row) : list cell :=
  map (fun r => Some (close (ohlcv r))) df.
Definition col_volume (df : list Row) : list cell :=
  map (fun r => Some (volume (ohlcv r))) df.

(** The frame returned by [generate_signals]: the rows and the five new
    boolean columns. *)
Record SignalFrame : Type := mkSignalFrame {
  rows : list Row;
  golden_cross : list bool;
  dead_cross : list bool;
  buy_signal : list bool;
  sell_signal : list bool;
  force_sell : list bool
}.

(** [generate_signals] *)
Definition generate_signals (df : list Row) : SignalFrame :=
  let golden_cross :=
    series_and (series_gt (col MA_short df) (col MA_long df))
               (series_le (shift (col MA_short df)) (shift (col MA_long df))) in
  let dead_cross :=
    series_and (series_lt (col MA_short df) (col MA_long df))
               (series_ge (shift (col MA_short df)) (shift (col MA_long df))) in
  let rsi_oversold := series_lt_const (col RSI df) 30 in
  let rsi_overbought := series_gt_const (col RSI df) 70 in
  let bb_oversold := series_lt (col_close df) (col BB_lower df) in
  let bb_overbought := series_gt (col_close df) (col BB_upper df) in
  let macd_bullish :=
    series_and (series_gt (col MACD df) (col MACD_signal df))
               (series_le (shift (col MACD df)) (shift (col MACD_signal df))) in
  let macd_bearish :=
    series_and (series_lt (col MACD df) (col MACD_signal df))
               (series_ge (shift (col MACD df)) (shift (col MACD_signal df))) in
  let volume_condition := series_gt (col_volume df) (col Volume_MA df) in
  {| rows := df;
     golden_cross := golden_cross;
     dead_cross := dead_cross;
     buy_signal :=
       series_and
         (series_and
            (series_and
               (series_and golden_cross (series_not rsi_overbought))
               (series_not bb_overbought))
            macd_bullish)
         volume_condition;
     sell_signal :=
       series_and
         (series_and
            (series_and
               (series_and dead_cross (series_not rsi_oversold))
               (series_not bb_oversold))
            macd_bearish)
         volume_condition;
     force_sell :=
       series_or (series_gt_const (col RSI df) 80)
                 (series_gt (col_close df)
                            (series_mul_const (col BB_upper df) (102 # 100))) |}.

(** [should_buy] *)
Definition should_buy (strategy : GoldenCrossStrategy) (df : SignalFrame)
    (current_index : nat) : bool :=
  if (current_index <? long_period strategy)%nat then false
  else nth current_index (buy_signal df) false.

(** [should_sell] *)
Definition should_sell (strategy : GoldenCrossStrategy) (df : SignalFrame)
    (current_index : nat) : bool :=
  if (current_index <? long_period strategy)%nat then false
  else nth current_index (sell_signal df) false
       || nth current_index (force_sell df) false.

(** ** The backtest loop *)

(** One turn of the [for] loop of [execute_backtest] at index [i].  The
    lookup [df.iloc[i]] succeeds for every index of the range. *)
Definition tick (strategy : GoldenCrossStrategy) (df : SignalFrame)
    (e : Engine) (i : nat) : Engine :=
  match nth_error (rows df) i with
  | None => e
  | Some r =>
      let current_price := close (ohlcv r) in
      let current_time := timestamp (ohlcv r) in
      let checked :=
        if has_position e
        then check_exit_conditions e current_price current_time
        else (false, e) in
      if fst checked then snd checked
      else
        let e1 := snd checked in
        let e2 :=
          if should_buy strategy df i && negb (has_position e1)
          then execute_buy e1 current_price current_time
          else if should_sell strategy df i && has_position e1
          then execute_sell e1 current_price current_time
          else e1 in
        update_equity_curve e2 current_price current_time
  end.

(** [range(strategy.long_period, len(df))] *)
Definition processed (strategy : GoldenCrossStrategy) (df : SignalFrame)
  : list nat :=
  seq (long_period strategy) (length (rows df) - long_period strategy).

(** [df.iloc[-1]]: the last row, when there is one. *)
Definition iloc_last (df : SignalFrame) : option Row :=
  last (map Some (rows df)) None.

(** The closing of the last position after the loop. *)
Definition close_last_position (df : SignalFrame) (e : Engine) : Engine :=
  if has_position e
  then match iloc_last df with
       | Some r => execute_sell e (close (ohlcv r)) (timestamp (ohlcv r))
       | None => e
       end
  else e.

(** [execute_backtest] *)
Definition execute_backtest (strategy : GoldenCrossStrategy)
    (df : SignalFrame) (e : Engine) : Engine :=
  close_last_position df (fold_left (tick strategy df) (processed strategy df) e).

(** [run_backtest], given what [get_historical_data] returned: the value
    returned and the engine afterwards. *)
Definition run_backtest (libs : Libs) (data : option (list Candle))
    (e : Engine) : option Results * Engine :=
  let strategy := {| short_period := Config.SHORT_MA_PERIOD;
                     long_period := Config.LONG_MA_PERIOD |} in
  match data with
  | None => (None, e)
  | Some df =>
      if (length df <? long_period strategy)%nat then (None, e)
      else
        let df1 := calculate_indicators libs df in
        let df2 := generate_signals df1 in
        let e1 := execute_backtest strategy df2 e in
        let e2 := calculate_results libs e1 in
        (Some (results e2), e2)
  end.

(** ** The run as a relation

    The same loop, one rule per path through its body, used to state that
    a run has one possible result. *)

Section Relational.
Variable strategy : GoldenCrossStrategy.
Variable df : SignalFrame.

(** One turn of the loop at index [i]. *)
Inductive tick_rel (i : nat) : Engine -> Engine -> Prop :=
| tick_exit : forall e r e',
    nth_error (rows df) i = Some r ->
    has_position e = true ->
    check_exit_conditions e (close (ohlcv r)) (timestamp (ohlcv r))
      = (true, e') ->
    tick_rel i e e'
| tick_buy : forall e r,
    nth_error (rows df) i = Some r ->
    has_position e = false ->
    should_buy strategy df i = true ->
    tick_rel i e
      (update_equity_curve
         (execute_buy e (close (ohlcv r)) (timestamp (ohlcv r)))
         (close (ohlcv r)) (timestamp (ohlcv r)))
| tick_sell : forall e r,
    nth_error (rows df) i = Some r ->
    has_position e = true ->
    check_exit_conditions e (close (ohlcv r)) (timestamp (ohlcv r))
      = (false, e) ->
    should_sell strategy df i = true ->
    tick_rel i e
      (update_equity_curve
         (execute_sell e (close (ohlcv r)) (timestamp (ohlcv r)))
         (close (ohlcv r)) (timestamp (ohlcv r)))
| tick_hold : forall e r,
    nth_error (rows df) i = Some r ->
    (has_position e = true ->
     check_exit_conditions e (close (ohlcv r)) (timestamp (ohlcv r))
       = (false, e)) ->
    (has_position e = false -> should_buy strategy df i = false) ->
    (has_position e = true -> should_sell strategy df i = false) ->
    tick_rel i e
      (update_equity_curve e (close (ohlcv r)) (timestamp (ohlcv r))).


End Relational.


(** ** The profit factor in the words of the specification *)

(** Realized profits of the sell records, in log order. *)
Definition realized_profits (ts : list Trade.t) : list Q :=
  flat_map (fun t => match Trade.type t, Trade.profit t with
                     | sell, Some p => [p]
                     | _, _ => []
                     end) ts.

(** Sum of the positive realized profits. *)
Definition gross_profit (ts : list Trade.t) : Q :=
  Qsum (filter (fun p => Qgtb p 0) (realized_profits ts)).

(** Sum of the absolute values of the negative realized profits. *)
Definition gross_loss (ts : list Trade.t) : Q :=
  Qsum (map Qabs (filter (fun p => Qltb p 0) (realized_profits ts))).

(** Number of losing trades: the sells whose profit is not positive. *)
Definition losing_count (ts : list Trade.t) : nat :=
  length (filter (fun p => negb (Qgtb p 0)) (realized_profits ts)).

(** A quotient exists only for a divisor other than zero. *)
Definition quotient (a b : Q) : option Q :=
  if Qeq_bool b 0 then None else Some (a / b).

(** The profit factor as the specification words it: the quotient of gross
    profit by gross loss when at least one losing trade exists, and 0 when
    there is none. *)
Definition spec_profit_factor (ts : list Trade.t) : option Q :=
  match losing_count ts with
  | O => Some 0
  | S _ => quotient (gross_profit ts) (gross_loss ts)
  end.

(** ** Shape of a trade log *)

(** Reads a log of trade types from a flat start: a buy is expected when
    flat and a sell when a position is open.  The result is whether a
    position is open at the end, or [None] when the order is broken. *)
Definition alternate (st : option bool) (ty : trade_type) : option bool :=
  match st, ty with
  | Some false, buy => Some true
  | Some true, sell => Some false
  | _, _ => None
  end.

Definition scan_log (tys : list trade_type) : option bool :=
  fold_left alternate tys (Some false).

(** What every turn of the loop keeps: the log read from a flat start ends
    in the engine's own state, and a flat engine holds nothing. *)
Definition ledger_invariant (e : Engine) : Prop :=
  scan_log (map Trade.type (trades e)) = Some (has_position e) /\
  (position e = None -> position_size e = 0).

(** Every sell record comes right after a buy record. *)
Fixpoint sells_follow_buys (prev : option trade_type) (tys : list trade_type)
  : bool :=
  match tys with
  | [] => true
  | ty :: rest =>
      match ty, prev with
      | sell, Some buy => sells_follow_buys (Some ty) rest
      | sell, _ => false
      | buy, Some buy => false
      | buy, _ => sells_follow_buys (Some ty) rest
      end
  end.

(** ** Sample frames *)

(** A row with its candle and the indicators the signal rules read. *)
Definition sample_row (ts : Z) (c v : Q)
    (ma_s ma_l rsi bb_u bb_l macd macd_s v_ma : cell) : Row :=
  {| ohlcv := {| timestamp := ts; open := c; high := c; low := c;
                 close := c; volume := v |};
     MA_short := ma_s; MA_long := ma_l; RSI := rsi;
     BB_upper := bb_u; BB_lower := bb_l; BB_middle := None;
     MACD := macd; MACD_signal := macd_s; MACD_histogram := None;
     Volume_MA := v_ma |}.

(** A row of the warm-up period: no indicator is defined yet. *)
Definition warmup_row (k : nat) : Row :=
  sample_row (Z.of_nat k) 100 1 None None None None None None None None.

(** A row with every indicator defined, the averages and the MACD lines
    being given. *)
Definition quiet_row (ts : Z) (c : Q) (ma_s ma_l macd macd_s : Q) : Row :=
  sample_row ts c 10 (Some ma_s) (Some ma_l) (Some 50) (Some 200) (Some 50)
             (Some macd) (Some macd_s) (Some 5).

(** Thirty-one rows: a warm-up, then a golden cross with a bullish MACD
    cross at index 30, at a close of 100. *)
Definition entry_rows : list Row :=
  map warmup_row (seq 0 29)
  ++ [quiet_row 29 100 99 100 (-1) 0; quiet_row 30 100 101 100 1 0].

(** The entry, then a close of 97, under the stop-loss price of 98, and
    one more quiet candle. *)
Definition stop_loss_rows : list Row :=
  entry_rows ++ [quiet_row 31 97 101 100 1 0; quiet_row 32 97 101 100 1 0].

(** The entry, then a last candle at 101, between the two exit prices. *)
Definition open_end_rows : list Row :=
  entry_rows ++ [quiet_row 31 101 101 100 1 0].

Definition config_strategy : GoldenCrossStrategy :=
  {| short_period := Config.SHORT_MA_PERIOD;
     long_period := Config.LONG_MA_PERIOD |}.

(** Stand-ins for the external functions on the sample frames: the
    indicators are read off [stop_loss_rows] by position, the mean is exact
    and the square root is the integer square root on six decimals. *)
Definition sample_sqrt (q : Q) : Q :=
  Z.sqrt (Qnum q * 1000000000000 / Z.pos (Qden q)) # 1000000.

Definition sample_mean (l : list Q) : Q :=
  Qsum l / inject_Z (Z.of_nat (length l)).

Definition sample_std (l : list Q) : Q :=
  sample_sqrt (sample_mean (map (fun x => (x - sample_mean l) * (x - sample_mean l)) l)).

Definition sample_libs : Libs :=
  {| calculate_indicators := fun cs => firstn (length cs) stop_loss_rows;
     np_mean := sample_mean;
     np_std := sample_std;
     np_sqrt := sample_sqrt |}.

Definition sample_candles : list Candle := map ohlcv stop_loss_rows.

(** Two round trips on a new engine: a buy at 100 sold at 110, then a buy
    at 100 sold at 100. *)
Definition break_even_engine : Engine :=
  execute_sell
    (execute_buy (execute_sell (execute_buy (init 10000) 100 1) 110 2) 100 3)
    100 4.

(** One round trip at a loss: a buy at 100 sold at 90. *)
Definition losing_engine : Engine :=
  execute_sell (execute_buy (init 10000) 100 1) 90 2.

(** ** Invariants of a run *)

Definition is_sell (t : Trade.t) : bool :=
  match Trade.type t with
  | sell => true
  | buy => false
  end.

(** Number of sell records of a log. *)
Definition sell_records (ts : list Trade.t) : nat :=
  length (filter is_sell ts).

(** A ledger with money in it: the balance and every recorded balance and
    equity are positive, the size is not negative and no short position is
    held. *)
Definition positive_ledger (e : Engine) : Prop :=
  0 < balance e /\
  0 <= position_size e /\
  position e <> Some short /\
  Forall (fun tr => 0 < Trade.balance tr) (trades e) /\
  Forall (fun pt => 0 < Equity.equity pt) (equity_curve e).

(** The counters agree with the log, and the derived statistics are still
    at their initial zero. *)
Definition counters_invariant (e : Engine) : Prop :=
  total_trades (results e) = Z.of_nat (sell_records (trades e)) /\
  total_trades (results e)
  = (winning_trades (results e) + losing_trades (results e))%Z /\
  (0 <= winning_trades (results e))%Z /\
  (0 <= losing_trades (results e))%Z /\
  total_return (results e) = 0 /\
  max_drawdown (results e) = 0 /\
  sharpe_ratio (results e) = 0 /\
  win_rate (results e) = 0 /\
  profit_factor (results e) = 0.


(** ** trading_strategy.py: the position held by the strategy *)

Module Strategy.

(** What [check_stop_loss_take_profit] answers besides [None]. *)
Inductive exit_reason : Type := stop_loss | take_profit.

(** The state fields of a [GoldenCrossStrategy] object. *)
Record t : Type := mk {
  position : option string;
  entry_price : option Q;
  stop_loss_price : option Q;
  take_profit_price : option Q
}.

(** The state set by [__init__] and by [clear_position]. *)
Definition empty : t :=
  {| position := None; entry_price := None;
     stop_loss_price := None; take_profit_price := None |}.

(** Truth value of [self.position]: [None] and the empty string are
    false. *)
Definition holds (s : t) : bool :=
  match position s with
  | Some p => negb (String.eqb p "")
  | None => false
  end.

(** [calculate_stop_loss_take_profit]: the pair
    [(stop_loss, take_profit)]. *)
Definition calculate_stop_loss_take_profit (entry : Q)
    (position_type : string) : Q * Q :=
  if String.eqb position_type "long"
  then (entry * (1 - Config.STOP_LOSS_PERCENT / 100),
        entry * (1 + Config.TAKE_PROFIT_PERCENT / 100))
  else (entry * (1 + Config.STOP_LOSS_PERCENT / 100),
        entry * (1 - Config.TAKE_PROFIT_PERCENT / 100)).

(** The two comparisons of one branch of [check_stop_loss_take_profit].
    A comparison of a float with [None] raises [TypeError]. *)
Definition compare_levels (first second : Q -> Q -> bool) (s : t)
    (current_price : Q) : outcome (option exit_reason) :=
  match stop_loss_price s with
  | None => Raised OtherException
  | Some sl =>
      if first current_price sl then Returned (Some stop_loss)
      else match take_profit_price s with
           | None => Raised OtherException
           | Some tp =>
               if second current_price tp then Returned (Some take_profit)
               else Returned None
           end
  end.

(** [check_stop_loss_take_profit] *)
Definition check_stop_loss_take_profit (s : t) (current_price : Q)
  : outcome (option exit_reason) :=
  match position s with
  | None => Returned None
  | Some p =>
      if String.eqb p "long" then compare_levels Qleb Qgeb s current_price
      else if String.eqb p "short" then compare_levels Qgeb Qleb s current_price
      else Returned None
  end.

(** [update_position] *)
Definition update_position (s : t) (position_type : string) (entry : Q) : t :=
  {| position := Some position_type;
     entry_price := Some entry;
     stop_loss_price :=
       Some (fst (calculate_stop_loss_take_profit entry position_type));
     take_profit_price :=
       Some (snd (calculate_stop_loss_take_profit entry position_type)) |}.

(** [clear_position] *)
Definition clear_position (s : t) : t := empty.

End Strategy.

(** ** binance_client.py and the exchange *)

(** What the exchange answers during one call of an engine method: the
    balance as the free amount of each asset, the last price, whether a
    market order comes back filled, the candles, and the clock.  A failed
    request is [None], as the client returns it. *)
Record Exchange : Type := mkExchange {
  fetch_balance : option (list (string * Q));
  ticker_last : option Q;
  buy_order_filled : bool;
  sell_order_filled : bool;
  fetch_ohlcv : option (list Candle);
  now : Z
}.

(** [balance[asset]['free']]: a missing key raises [KeyError]. *)
Fixpoint free_of (asset : string) (balance : list (string * Q)) : option Q :=
  match balance with
  | [] => None
  | (k, v) :: rest => if String.eqb k asset then Some v else free_of asset rest
  end.

(** Truth value of a price or an amount: [None] and 0 are false. *)
Definition nonzero (x : option Q) : option Q :=
  match x with
  | Some v => if Qeq_bool v 0 then None else Some v
  | None => None
  end.

(** [BinanceClient.calculate_order_amount], given the price that
    [get_current_price] returned. *)
Definition calculate_order_amount (current_price : option Q) (usdt_amount : Q)
  : option Q :=
  match nonzero current_price with
  | Some p =>
      let fee_rate := 1 # 1000 in
      let adjusted_amount := usdt_amount * (1 - fee_rate) in
      Some (adjusted_amount / p)
  | None => None
  end.

(** ** trading_engine.py *)

Module Live.

(** The [trade_stats] dict. *)
Record TradeStats : Type := mkStats {
  total_trades : Z;
  winning_trades : Z;
  losing_trades : Z;
  total_profit : Q;
  max_drawdown : Q;
  current_drawdown : Q
}.

(** The fields of a [TradingEngine] object. *)
Record TradingEngine : Type := mkEngine {
  strategy : Strategy.t;
  is_running : bool;
  last_signal_time : option Z;
  trade_stats : TradeStats
}.

(** [TradingEngine.__init__] *)
Definition init : TradingEngine :=
  {| strategy := Strategy.empty;
     is_running := false;
     last_signal_time := None;
     trade_stats := {| total_trades := 0; winning_trades := 0;
                       losing_trades := 0; total_profit := 0;
                       max_drawdown := 0; current_drawdown := 0 |} |}.

(** [execute_buy_trade].  Every early [return], and every exception, which
    the handler logs, comes before the first assignment. *)
Definition execute_buy_trade (ex : Exchange) (e : TradingEngine)
    (current_price : Q) : TradingEngine :=
  if Strategy.holds (strategy e) then e
  else
    match fetch_balance ex with
    | None | Some [] => e
    | Some balance =>
        match free_of "USDT" balance with
        | None => e
        | Some usdt_balance =>
            if Qltb usdt_balance Config.TRADE_AMOUNT then e
            else
              match nonzero (calculate_order_amount (ticker_last ex)
                                                    Config.TRADE_AMOUNT) with
              | None => e
              | Some amount =>
                  if buy_order_filled ex
                  then {| strategy :=
                            Strategy.update_position (strategy e) "long"
                                                     current_price;
                          is_running := is_running e;
                          last_signal_time := Some (now ex);
                          trade_stats :=
                            {| total_trades :=
                                 total_trades (trade_stats e) + 1;
                               winning_trades := winning_trades (trade_stats e);
                               losing_trades := losing_trades (trade_stats e);
                               total_profit := total_profit (trade_stats e);
                               max_drawdown := max_drawdown (trade_stats e);
                               current_drawdown :=
                                 current_drawdown (trade_stats e) |} |}
                  else e
              end
        end
    end.

(** [execute_sell_trade].  The base asset of [Config.SYMBOL] is BTC. *)
Definition execute_sell_trade (ex : Exchange) (e : TradingEngine)
    (current_price : Q) : TradingEngine :=
  if negb (Strategy.holds (strategy e)) then e
  else
    match fetch_balance ex with
    | None | Some [] => e
    | Some balance =>
        match free_of "BTC" balance with
        | None => e
        | Some asset_balance =>
            if Qleb asset_balance 0 then e
            else if sell_order_filled ex
            then
              match Strategy.entry_price (strategy e) with
              | None => e
              | Some entry =>
                  let profit :=
                    match Strategy.position (strategy e) with
                    | Some p =>
                        if String.eqb p "long"
                        then (current_price - entry) * asset_balance
                        else (entry - current_price) * asset_balance
                    | None => (entry - current_price) * asset_balance
                    end in
                  {| strategy := Strategy.clear_position (strategy e);
                     is_running := is_running e;
                     last_signal_time := Some (now ex);
                     trade_stats :=
                       {| total_trades := total_trades (trade_stats e);
                          winning_trades :=
                            if Qgtb profit 0
                            then winning_trades (trade_stats e) + 1
                            else winning_trades (trade_stats e);
                          losing_trades :=
                            if Qgtb profit 0
                            then losing_trades (trade_stats e)
                            else losing_trades (trade_stats e) + 1;
                          total_profit := total_profit (trade_stats e) + profit;
                          max_drawdown := max_drawdown (trade_stats e);
                          current_drawdown :=
                            current_drawdown (trade_stats e) |} |}
              end
            else e
        end
    end.

(** [execute_exit_trade] *)
Definition execute_exit_trade (ex : Exchange) (e : TradingEngine)
    (exit_reason : Strategy.exit_reason) (current_price : Q) : TradingEngine :=
  execute_sell_trade ex e current_price.

(** [check_trading_signals] *)
Definition check_trading_signals (libs : Libs) (ex : Exchange)
    (e : TradingEngine) : TradingEngine :=
  match fetch_ohlcv ex with
  | None => e
  | Some data =>
      if (length data <? Config.LONG_MA_PERIOD)%nat then e
      else
        let df := generate_signals (calculate_indicators libs data) in
        let current_index := (length (rows df) - 1)%nat in
        match nth_error (rows df) current_index with
        | None => e
        | Some r =>
            let current_price := close (ohlcv r) in
            let checked :=
              if Strategy.holds (strategy e)
              then Strategy.check_stop_loss_take_profit (strategy e)
                                                        current_price
              else Returned None in
            match checked with
            | Raised _ => e
            | Returned (Some reason) =>
                execute_exit_trade ex e reason current_price
            | Returned None =>
                if should_buy config_strategy df current_index
                then execute_buy_trade ex e current_price
                else if should_sell config_strategy df current_index
                then execute_sell_trade ex e current_price
                else e
            end
        end
  end.

(** Body of [check_position_status]: the engine it leaves and the
    exception that ends it, if any.  The profit logged at the end reads
    [entry_price] again; subtracting [None] raises [TypeError]. *)
Definition check_position_status_body (ex : Exchange) (e : TradingEngine)
  : TradingEngine * option exn :=
  if negb (Strategy.holds (strategy e)) then (e, None)
  else
    match nonzero (ticker_last ex) with
    | None => (e, None)
    | Some current_price =>
        match Strategy.check_stop_loss_take_profit (strategy e)
                                                   current_price with
        | Raised x => (e, Some x)
        | Returned sl_tp_result =>
            let e1 :=
              match sl_tp_result with
              | Some reason => execute_exit_trade ex e reason current_price
              | None => e
              end in
            match Strategy.entry_price (strategy e1) with
            | None => (e1, Some OtherException)
            | Some _ => (e1, None)
            end
        end
    end.

(** [check_position_status]: the handler logs and returns. *)
Definition check_position_status (ex : Exchange) (e : TradingEngine)
  : TradingEngine :=
  fst (check_position_status_body ex e).

(** [stop_trading] *)
Definition stop_trading (e : TradingEngine) : TradingEngine :=
  {| strategy := strategy e;
     is_running := false;
     last_signal_time := last_signal_time e;
     trade_stats := trade_stats e |}.

(** [emergency_stop] *)
Definition emergency_stop (ex : Exchange) (e : TradingEngine)
  : TradingEngine :=
  stop_trading
    (if Strategy.holds (strategy e)
     then match nonzero (ticker_last ex) with
          | Some current_price => execute_sell_trade ex e current_price
          | None => e
          end
     else e).

(** The [win_rate] entry of [get_trading_stats]. *)
Definition win_rate (e : TradingEngine) : Q :=
  if (0 <? total_trades (trade_stats e))%Z
  then inject_Z (winning_trades (trade_stats e))
       / inject_Z (total_trades (trade_stats e)) * 100
  else 0.

(** The methods that change a running engine, each with what the exchange
    answers during the call. *)
Inductive call : Type :=
| CheckTradingSignals (libs : Libs) (ex : Exchange)
| CheckPositionStatus (ex : Exchange)
| ExecuteBuyTrade (ex : Exchange) (current_price : Q)
| ExecuteSellTrade (ex : Exchange) (current_price : Q)
| EmergencyStop (ex : Exchange)
| StopTrading.

Definition perform (e : TradingEngine) (c : call) : TradingEngine :=
  match c with
  | CheckTradingSignals libs ex => check_trading_signals libs ex e
  | CheckPositionStatus ex => check_position_status ex e
  | ExecuteBuyTrade ex p => execute_buy_trade ex e p
  | ExecuteSellTrade ex p => execute_sell_trade ex e p
  | EmergencyStop ex => emergency_stop ex e
  | StopTrading => stop_trading e
  end.

(** The engine after a sequence of calls on a new engine. *)
Definition after (calls : list call) : TradingEngine :=
  fold_left perform calls init.

(** What the calls keep: the position is none or long, a long position
    has its entry price and both levels, every bought trade is won, lost or
    still open, and the two drawdown entries are never written. *)
Definition consistent (e : TradingEngine) : Prop :=
  (Strategy.position (strategy e) = None /\
   Strategy.entry_price (strategy e) = None /\
   total_trades (trade_stats e)
   = (winning_trades (trade_stats e) + losing_trades (trade_stats e))%Z
   \/
   (exists entry,
       strategy e = Strategy.update_position Strategy.empty "long" entry) /\
   total_trades (trade_stats e)
   = (winning_trades (trade_stats e) + losing_trades (trade_stats e) + 1)%Z) /\
  (0 <= winning_trades (trade_stats e))%Z /\
  (0 <= losing_trades (trade_stats e))%Z /\
  max_drawdown (trade_stats e) = 0 /\
  current_drawdown (trade_stats e) = 0.

End Live.

(** ** monitor.py *)

Module Monitor.

(** What the text of an alert is built from. *)
Inductive message : Type :=
| ApiError (api_errors : Z)
| LowBalance (usdt_balance : Q)
| EngineStopped
| ConsecutiveLosses (count : Z)
| MaxDrawdown (max_drawdown : Q).

(** The value under a ['timestamp'] or ['last_update'] key: a [datetime],
    in whole seconds, until [save_monitoring_data] replaces it, in the dict
    itself, by its ISO string. *)
Inductive stamp : Type :=
| Datetime (second : Z)
| IsoString (second : Z).

(** An alert dict. *)
Record Alert : Type := mkAlert {
  type : string;
  text : message;
  timestamp : stamp;
  notified : bool
}.

(** The [performance_metrics] dict. *)
Record Metrics : Type := mkMetrics {
  total_trades : Z;
  winning_trades : Z;
  losing_trades : Z;
  win_rate : Q;
  total_profit : Q;
  current_drawdown : Q;
  max_drawdown : Q;
  last_update : stamp
}.

(** The fields of a [TradingMonitor] that its checks read and write. *)
Record t : Type := mk {
  system_status : string;
  alerts : list Alert;
  performance_metrics : option Metrics;
  api_errors : Z;
  consecutive_losses : Z
}.

(** A new monitor, as [__init__] leaves it. *)
Definition init : t :=
  {| system_status := "stopped";
     alerts := [];
     performance_metrics := None;
     api_errors := 0;
     consecutive_losses := 0 |}.

(** The [alert_thresholds] dict. *)
Definition threshold_max_drawdown : Q := 10.
Definition threshold_consecutive_losses : Z := 5.
Definition threshold_low_balance : Q := 100.

(** [timedelta.seconds]: the seconds within the day, the days left out. *)
Definition seconds (delta : Z) : Z := delta mod 86400.

(** [(clock - a['timestamp']).seconds]: subtracting a string from a
    [datetime] raises [TypeError]. *)
Definition age (clock : Z) (a : Alert) : outcome Z :=
  match timestamp a with
  | Datetime z => Returned (seconds (clock - z))
  | IsoString _ => Raised OtherException
  end.

Definition with_alerts (m : t) (l : list Alert) : t :=
  {| system_status := system_status m;
     alerts := l;
     performance_metrics := performance_metrics m;
     api_errors := api_errors m;
     consecutive_losses := consecutive_losses m |}.

(** The list [existing_alerts] of [add_alert]: the age of an alert is
    computed only when its type is the one asked for. *)
Fixpoint existing_alerts (clock : Z) (alert_type : string) (l : list Alert)
  : outcome (list Alert) :=
  match l with
  | [] => Returned []
  | a :: rest =>
      if String.eqb (type a) alert_type
      then match age clock a with
           | Raised x => Raised x
           | Returned d =>
               match existing_alerts clock alert_type rest with
               | Raised x => Raised x
               | Returned r => Returned (if (d <? 300)%Z then a :: r else r)
               end
           end
      else existing_alerts clock alert_type rest
  end.

(** [add_alert], the clock being read once.  It has no handler: an
    exception leaves it before the list is touched. *)
Definition add_alert (clock : Z) (m : t) (alert_type : string)
    (msg : message) : outcome t :=
  let alert := {| type := alert_type; text := msg;
                  timestamp := Datetime clock; notified := false |} in
  match existing_alerts clock alert_type (alerts m) with
  | Raised x => Raised x
  | Returned [] => Returned (with_alerts m (alerts m ++ [alert]))
  | Returned (_ :: _) => Returned m
  end.

(** The list built by [check_alerts]: the age of every alert is
    computed. *)
Fixpoint recent_alerts (clock : Z) (l : list Alert) : outcome (list Alert) :=
  match l with
  | [] => Returned []
  | a :: rest =>
      match age clock a with
      | Raised x => Raised x
      | Returned d =>
          match recent_alerts clock rest with
          | Raised x => Raised x
          | Returned r => Returned (if (d <? 3600)%Z then a :: r else r)
          end
      end
  end.

Definition mark_notified (a : Alert) : Alert :=
  {| type := type a; text := text a; timestamp := timestamp a;
     notified := true |}.

(** [check_alerts]: keeps the alerts whose age has less than 3600 seconds
    within the day and marks them as notified.  An exception is logged and
    leaves the list as it was. *)
Definition check_alerts (clock : Z) (m : t) : t :=
  match recent_alerts clock (alerts m) with
  | Raised _ => m
  | Returned l => with_alerts m (map mark_notified l)
  end.

(** The [active_alerts] entry of [get_monitoring_summary]. *)
Definition active_alerts (m : t) : nat :=
  length (filter (fun a => negb (notified a)) (alerts m)).

(** [get_recent_trades]: always the empty list. *)
Definition get_recent_trades (limit : nat) : list Trade.t := [].

(** The loop of [count_consecutive_losses] over the trades it has left,
    last trade first. *)
Fixpoint count_losses_from (reversed : list Trade.t) : nat :=
  match reversed with
  | [] => O
  | trade :: rest =>
      let profit := match Trade.profit trade with
                    | Some p => p
                    | None => 0
                    end in
      if Qltb profit 0 then S (count_losses_from rest) else O
  end.

(** [trade.get('profit', 0)] *)
Definition profit_of (trade : Trade.t) : Q :=
  match Trade.profit trade with
  | Some p => p
  | None => 0
  end.

(** [count_consecutive_losses] *)
Definition count_consecutive_losses (trades : list Trade.t) : nat :=
  count_losses_from (rev trades).

(** A call of [add_alert] inside a method with a handler: an exception
    ends the method with the fields as they are at that point. *)
Definition guarded (current : t) (step : outcome t) (next : t -> t) : t :=
  match step with
  | Returned m' => next m'
  | Raised _ => current
  end.

(** [update_performance_metrics] on the statistics of the engine. *)
Definition update_performance_metrics (clock : Z) (e : Live.TradingEngine)
    (m : t) : t :=
  let stats := Live.trade_stats e in
  let metrics := {| total_trades := Live.total_trades stats;
                    winning_trades := Live.winning_trades stats;
                    losing_trades := Live.losing_trades stats;
                    win_rate := Live.win_rate e;
                    total_profit := Live.total_profit stats;
                    current_drawdown := Live.current_drawdown stats;
                    max_drawdown := Live.max_drawdown stats;
                    last_update := Datetime clock |} in
  let m1 := {| system_status := system_status m;
               alerts := alerts m;
               performance_metrics := Some metrics;
               api_errors := api_errors m;
               consecutive_losses := consecutive_losses m |} in
  let drawdown_check (m2 : t) : t :=
    if Qgtb (Live.max_drawdown stats) threshold_max_drawdown
    then guarded m2
           (add_alert clock m2 "max_drawdown"
                      (MaxDrawdown (Live.max_drawdown stats)))
           (fun m3 => m3)
    else m2 in
  if (0 <? Live.losing_trades stats)%Z
  then
    let recent_trades := get_recent_trades 10 in
    let count := Z.of_nat (count_consecutive_losses recent_trades) in
    let m' := {| system_status := system_status m1;
                 alerts := alerts m1;
                 performance_metrics := performance_metrics m1;
                 api_errors := api_errors m1;
                 consecutive_losses := count |} in
    if (threshold_consecutive_losses <=? count)%Z
    then guarded m'
           (add_alert clock m' "consecutive_losses" (ConsecutiveLosses count))
           drawdown_check
    else drawdown_check m'
  else drawdown_check m1.

(** A failed balance request: [None] or an empty dict. *)
Definition failed (ex : Exchange) : bool :=
  match fetch_balance ex with
  | None | Some [] => true
  | Some (_ :: _) => false
  end.

(** [check_system_health] *)
Definition check_system_health (clock : Z) (ex : Exchange)
    (e : Live.TradingEngine) (m : t) : t :=
  let usdt_balance :=
    if failed ex then 0
    else match fetch_balance ex with
         | Some b => match free_of "USDT" b with
                     | Some v => v
                     | None => 0
                     end
         | None => 0
         end in
  let engine_check (m2 : t) : t :=
    if negb (Live.is_running e)
    then guarded m2 (add_alert clock m2 "engine_stopped" EngineStopped)
                 (fun m3 => m3)
    else m2 in
  let balance_check (m1 : t) : t :=
    if Qltb usdt_balance threshold_low_balance
    then guarded m1
           (add_alert clock m1 "low_balance" (LowBalance usdt_balance))
           engine_check
    else engine_check m1 in
  if failed ex
  then
    let m' := {| system_status := system_status m;
                 alerts := alerts m;
                 performance_metrics := performance_metrics m;
                 api_errors := api_errors m + 1;
                 consecutive_losses := consecutive_losses m |} in
    guarded m' (add_alert clock m' "api_error" (ApiError (api_errors m + 1)))
            balance_check
  else
    balance_check {| system_status := system_status m;
                     alerts := alerts m;
                     performance_metrics := performance_metrics m;
                     api_errors := 0;
                     consecutive_losses := consecutive_losses m |}.

(** The loop of [save_monitoring_data] over the alerts: each timestamp is
    replaced by its ISO string in the alert itself; a timestamp that is a
    string already has no [isoformat] and raises [AttributeError], which ends
    the loop.  The flag says whether the loop was left by an exception. *)
Fixpoint stringify (l : list Alert) : list Alert * bool :=
  match l with
  | [] => ([], false)
  | a :: rest =>
      match timestamp a with
      | Datetime z =>
          let a' := {| type := type a; text := text a;
                       timestamp := IsoString z; notified := notified a |} in
          (a' :: fst (stringify rest), snd (stringify rest))
      | IsoString _ => (a :: rest, true)
      end
  end.

(** The same replacement under the ['last_update'] key of the metrics. *)
Definition stringify_metrics (pm : option Metrics) : option Metrics * bool :=
  match pm with
  | None => (None, false)
  | Some x =>
      match last_update x with
      | Datetime z =>
          (Some {| total_trades := total_trades x;
                   winning_trades := winning_trades x;
                   losing_trades := losing_trades x;
                   win_rate := win_rate x;
                   total_profit := total_profit x;
                   current_drawdown := current_drawdown x;
                   max_drawdown := max_drawdown x;
                   last_update := IsoString z |}, false)
      | IsoString _ => (Some x, true)
      end
  end.

(** [save_monitoring_data]: the monitor afterwards and whether the call of
    [json.dump] is reached.  [dir_ok] says that the data directory exists or
    could be made.  The copy of [monitoring_data] is shallow: the alerts and
    the metrics it holds are the monitor's own. *)
Definition save_monitoring_data (dir_ok : bool) (m : t) : t * bool :=
  if negb dir_ok then (m, false)
  else
    let converted := stringify (alerts m) in
    let m1 := with_alerts m (fst converted) in
    if snd converted then (m1, false)
    else
      let pm := stringify_metrics (performance_metrics m1) in
      ({| system_status := system_status m1;
          alerts := alerts m1;
          performance_metrics := fst pm;
          api_errors := api_errors m1;
          consecutive_losses := consecutive_losses m1 |},
       negb (snd pm)).

(** The steps of the monitoring loop, each with the clock and what it
    reads from outside. *)
Inductive call : Type :=
| CheckSystemHealth (clock : Z) (ex : Exchange) (e : Live.TradingEngine)
| UpdatePerformanceMetrics (clock : Z) (e : Live.TradingEngine)
| CheckAlerts (clock : Z)
| SaveMonitoringData (dir_ok : bool).

Definition perform (m : t) (c : call) : t :=
  match c with
  | CheckSystemHealth clock ex e => check_system_health clock ex e m
  | UpdatePerformanceMetrics clock e => update_performance_metrics clock e m
  | CheckAlerts clock => check_alerts clock m
  | SaveMonitoringData dir_ok => fst (save_monitoring_data dir_ok m)
  end.

(** Every alert still carries a [datetime]. *)
Definition dated (a : Alert) : Prop :=
  exists z, timestamp a = Datetime z.

(** The second list is the first one with more alerts after it. *)
Definition extends (l1 l2 : list Alert) : Prop :=
  exists extra, l2 = l1 ++ extra.

(** The first alert of the list carries a string. *)
Definition stuck (m : t) : Prop :=
  exists a rest z, alerts m = a :: rest /\ timestamp a = IsoString z.

(** Whether a dated alert has less than [limit] seconds within the day. *)
Definition young (limit clock : Z) (a : Alert) : bool :=
  match timestamp a with
  | Datetime z => (seconds (clock - z) <? limit)%Z
  | IsoString _ => false
  end.

(** The answers of the exchange to the health checks of a sequence of
    calls. *)
Definition health_answers (calls : list call) : list Exchange :=
  flat_map (fun c => match c with
                     | CheckSystemHealth _ ex _ => [ex]
                     | _ => []
                     end) calls.

(** Number of failed balance requests at the end of a sequence of
    answers, last answer first. *)
Fixpoint trailing_failures (reversed : list Exchange) : nat :=
  match reversed with
  | [] => O
  | ex :: rest => if failed ex then S (trailing_failures rest) else O
  end.

End Monitor.

(** An exchange that returns the sample candles, holds 1000 USDT and one
    BTC, gives a last price of 97 and fills every order. *)
Definition sample_exchange_with_candles : Exchange :=
  {| fetch_balance := Some [("USDT"%string, 1000); ("BTC"%string, 1)];
     ticker_last := Some 97;
     buy_order_filled := true;
     sell_order_filled := true;
     fetch_ohlcv := Some (map ohlcv stop_loss_rows);
     now := 0 |}.

(** A monitor with one alert that has not been saved yet. *)
Definition sample_monitor : Monitor.t :=
  Monitor.with_alerts Monitor.init
    [{| Monitor.type := "low_balance";
        Monitor.text := Monitor.LowBalance 50;
        Monitor.timestamp := Monitor.Datetime 1000;
        Monitor.notified := false |}].

(** An exchange that answers every request: a balance of 1000 USDT and one
    BTC, a last price of 97, and orders that are filled. *)
Definition sample_exchange : Exchange :=
  {| fetch_balance := Some [("USDT"%string, 1000); ("BTC"%string, 1)];
     ticker_last := Some 97;
     buy_order_filled := true;
     sell_order_filled := true;
     fetch_ohlcv := None;
     now := 0 |}.

(** * Properties *)

(** ** Comparisons *)

Lemma Qleb_le (a b : Q) : Qleb a b = true <-> a <= b.
Proof. unfold Qleb. apply Qle_bool_iff. Qed.

Lemma Qgeb_ge (a b : Q) : Qgeb a b = true <-> b <= a.
Proof. unfold Qgeb. apply Qle_bool_iff. Qed.

Lemma Qgtb_gt (a b : Q) : Qgtb a b = true <-> b < a.
Proof.
  unfold Qgtb. rewrite negb_true_iff, <- not_true_iff_false, Qle_bool_iff.
  split; [apply Qnot_le_lt | apply Qlt_not_le].
Qed.

Lemma Qltb_lt (a b : Q) : Qltb a b = true <-> a < b.
Proof. unfold Qltb. apply (Qgtb_gt b a). Qed.

Lemma Qgtb_not_gt (a b : Q) : Qgtb a b = false <-> a <= b.
Proof.
  unfold Qgtb. rewrite negb_false_iff. apply Qle_bool_iff.
Qed.

(** ** The ledger on a concrete round trip *)

(** C4: from an initial balance of 10000, a buy at 100 followed by a sell
    at 110 gives size 90, trade amount 9000, balance 1000 after the buy,
    proceeds 9900, realized profit 900, balance 10900 after the sell, a total
    return of 9 percent, one winning trade, no losing trade and a profit
    factor of 0. *)
Theorem C4_round_trip_100_110 :
  forall (libs : Libs) (t1 t2 : Z),
    let e1 := execute_buy (init 10000) 100 t1 in
    let e2 := execute_sell e1 110 t2 in
    let r := results (calculate_results libs e2) in
    (exists tb,
        trades e1 = [tb] /\ Trade.type tb = buy /\
        Trade.size tb == 90 /\ Trade.amount tb == 9000 /\
        Trade.balance tb == 1000) /\
    position_size e1 == 90 /\
    balance e1 == 1000 /\
    (exists tb ts p,
        trades e2 = [tb; ts] /\ Trade.type ts = sell /\
        Trade.amount ts == 9900 /\ Trade.profit ts = Some p /\ p == 900 /\
        Trade.balance ts == 10900) /\
    balance e2 == 10900 /\
    total_return r == 9 /\
    total_trades r = 1%Z /\
    winning_trades r = 1%Z /\
    losing_trades r = 0%Z /\
    profit_factor r == 0.
Proof.
  intros libs t1 t2 e1 e2 r.
  split.
  { eexists. repeat split; reflexivity. }
  split; [reflexivity|].
  split; [reflexivity|].
  split.
  { do 3 eexists. repeat split; reflexivity. }
  repeat split; reflexivity.
Qed.

(** ** Calls outside the expected state *)




(** ** Stop-loss and take-profit exits *)

Lemma check_exit_hit (e : Engine) (p : Q) (t : Z) :
  position e = Some long ->
  p <= stop_loss_price (entry_price e) \/ take_profit_price (entry_price e) <= p ->
  check_exit_conditions e p t = (true, execute_sell e p t).
Proof.
  intros Hpos Hhit. unfold check_exit_conditions. rewrite Hpos.
  assert (Hb : Qleb p (stop_loss_price (entry_price e))
               || Qgeb p (take_profit_price (entry_price e)) = true).
  { apply orb_true_iff. destruct Hhit as [H | H].
    - left. now apply Qleb_le.
    - right. now apply Qgeb_ge. }
  now rewrite Hb.
Qed.

Lemma check_exit_cases (e : Engine) (p : Q) (t : Z) :
  check_exit_conditions e p t = (false, e) \/
  check_exit_conditions e p t = (true, execute_sell e p t).
Proof.
  unfold check_exit_conditions.
  destruct (position e) as [[|]|]; auto.
  destruct (Qleb p _ || Qgeb p _); auto.
Qed.

Lemma execute_sell_open (e : Engine) (p : Q) (t : Z) (s : side) :
  position e = Some s ->
  exists tr,
    trades (execute_sell e p t) = trades e ++ [tr] /\
    Trade.type tr = sell /\ Trade.price tr = p /\ Trade.timestamp tr = t /\
    position (execute_sell e p t) = None /\
    position_size (execute_sell e p t) = 0 /\
    equity_curve (execute_sell e p t) = equity_curve e.
Proof.
  intros Hpos. unfold execute_sell, execute_sell_body. rewrite Hpos. cbn.
  eexists. repeat split.
Qed.

Lemma tick_on_exit (strategy : GoldenCrossStrategy) (df : SignalFrame)
    (e : Engine) (i : nat) (r : Row) :
  nth_error (rows df) i = Some r ->
  position e = Some long ->
  close (ohlcv r) <= stop_loss_price (entry_price e) \/
  take_profit_price (entry_price e) <= close (ohlcv r) ->
  tick strategy df e i
  = execute_sell e (close (ohlcv r)) (timestamp (ohlcv r)).
Proof.
  intros Hrow Hpos Hhit. unfold tick. rewrite Hrow.
  unfold has_position. rewrite Hpos.
  now rewrite (check_exit_hit e _ _ Hpos Hhit).
Qed.

(** C3: when a long position is open and the candle closes at or below
    the stop-loss price or at or above the take-profit price, the turn of
    the loop is exactly a sell at that candle's close: the new record is a
    sell priced at the close, the position is closed, and the result is the
    same whatever the strategy and the signal columns say for that candle.
    With a stop loss of 2 percent, an entry at 100 has its stop-loss price at
    98 and a close of 97 takes this exit. *)
Theorem C3_exit_at_close_before_signals :
  forall (strategy : GoldenCrossStrategy) (df : SignalFrame) (e : Engine)
         (i : nat) (r : Row),
    nth_error (rows df) i = Some r ->
    position e = Some long ->
    close (ohlcv r) <= stop_loss_price (entry_price e) \/
    take_profit_price (entry_price e) <= close (ohlcv r) ->
    tick strategy df e i
    = execute_sell e (close (ohlcv r)) (timestamp (ohlcv r)) /\
    (exists tr,
        trades (tick strategy df e i) = trades e ++ [tr] /\
        Trade.type tr = sell /\ Trade.price tr = close (ohlcv r)) /\
    position (tick strategy df e i) = None /\
    (forall strategy' df',
        rows df' = rows df ->
        tick strategy' df' e i = tick strategy df e i) /\
    Config.STOP_LOSS_PERCENT == 2 /\
    stop_loss_price 100 == 98 /\
    (forall (e0 : Engine) (t : Z),
        position e0 = Some long -> entry_price e0 = 100 ->
        check_exit_conditions e0 97 t = (true, execute_sell e0 97 t)).
Proof.
  intros strategy df e i r Hrow Hpos Hhit.
  pose proof (tick_on_exit strategy df e i r Hrow Hpos Hhit) as Htick.
  destruct (execute_sell_open e (close (ohlcv r)) (timestamp (ohlcv r)) long Hpos)
    as (tr & Htr & Hty & Hpr & _ & Hnone & _ & _).
  split; [exact Htick|]. rewrite Htick.
  split; [exists tr; auto|].
  split; [exact Hnone|].
  split.
  { intros strategy' df' Hrows. apply tick_on_exit; auto. congruence. }
  split; [reflexivity|]. split; [reflexivity|].
  intros e0 t Hpos0 Hentry. apply check_exit_hit; auto.
  left. rewrite Hentry. apply Qle_bool_iff. reflexivity.
Qed.

Lemma C3_exit_at_close_before_signals_witness :
  let df := generate_signals stop_loss_rows in
  let e := execute_buy (init 10000) 100 30 in
  let r := quiet_row 31 97 101 100 1 0 in
  tick config_strategy df e 31 = execute_sell e 97 31 /\
  (exists tr,
      trades (tick config_strategy df e 31) = trades e ++ [tr] /\
      Trade.type tr = sell /\ Trade.price tr = 97) /\
  position (tick config_strategy df e 31) = None /\
  (forall strategy' df',
      rows df' = rows df ->
      tick strategy' df' e 31 = tick config_strategy df e 31) /\
  Config.STOP_LOSS_PERCENT == 2 /\
  stop_loss_price 100 == 98 /\
  (forall (e0 : Engine) (t : Z),
      position e0 = Some long -> entry_price e0 = 100 ->
      check_exit_conditions e0 97 t = (true, execute_sell e0 97 t)).
Proof.
  intros df e r.
  apply (C3_exit_at_close_before_signals config_strategy df e 31%nat r).
  - reflexivity.
  - reflexivity.
  - left. apply Qle_bool_iff. reflexivity.
Defined.

(** ** The equity curve *)

(** C1 fails on a frame with a stop-loss exit: the loop processes the three
    indices 30, 31 and 32, buys at 30 and takes the stop-loss exit at 31, and
    the equity curve holds the two points of 30 and 32 only, none for the
    candle of the exit. *)
Theorem C1_exit_candle_has_no_equity_point :
  let df := generate_signals stop_loss_rows in
  let e := execute_backtest config_strategy df (init 10000) in
  processed config_strategy df = [30; 31; 32]%nat /\
  map Trade.type (trades e) = [buy; sell] /\
  map Trade.timestamp (trades e) = [30; 31]%Z /\
  map Trade.price (trades e) = [100; 97] /\
  map Equity.timestamp (equity_curve e) = [30; 32]%Z /\
  length (equity_curve e) <> length (processed config_strategy df).
Proof.
  vm_compute. repeat split. discriminate.
Qed.

(** ** What the loop keeps *)

Lemma fold_left_invariant {A B : Type} (P : A -> Prop) (f : A -> B -> A)
    (l : list B) :
  (forall a b, P a -> P (f a b)) ->
  forall a, P a -> P (fold_left f l a).
Proof.
  intros Hstep. induction l as [|b l IH]; intros a Ha; cbn; auto.
Qed.

Lemma scan_log_app (l : list trade_type) (x : trade_type) :
  scan_log (l ++ [x]) = alternate (scan_log l) x.
Proof. unfold scan_log. now rewrite fold_left_app. Qed.

Lemma invariant_init (b : Q) : ledger_invariant (init b).
Proof. split; reflexivity. Qed.

Lemma invariant_buy (e : Engine) (p : Q) (t : Z) :
  ledger_invariant e -> has_position e = false ->
  ledger_invariant (execute_buy e p t).
Proof.
  intros [Hlog _] Hflat. split.
  - cbn -[scan_log]. rewrite map_app. cbn [map Trade.type].
    rewrite scan_log_app, Hlog, Hflat. reflexivity.
  - cbn. discriminate.
Qed.

Lemma invariant_sell (e : Engine) (p : Q) (t : Z) :
  ledger_invariant e -> ledger_invariant (execute_sell e p t).
Proof.
  intros [Hlog Hsize]. unfold execute_sell, execute_sell_body.
  destruct (position e) as [s|] eqn:Hpos.
  - split; [|reflexivity]. cbn -[scan_log].
    rewrite map_app. cbn [map Trade.type].
    rewrite scan_log_app, Hlog. unfold has_position.
    now rewrite Hpos.
  - split; auto.
Qed.

Lemma invariant_equity (e : Engine) (p : Q) (t : Z) :
  ledger_invariant e -> ledger_invariant (update_equity_curve e p t).
Proof. intros [Hlog Hsize]. split; assumption. Qed.

Lemma invariant_tick (strategy : GoldenCrossStrategy) (df : SignalFrame)
    (e : Engine) (i : nat) :
  ledger_invariant e -> ledger_invariant (tick strategy df e i).
Proof.
  intros Hinv. unfold tick.
  destruct (nth_error (rows df) i) as [r|]; [|exact Hinv].
  destruct (has_position e) eqn:Hopen; cbn [fst snd].
  - destruct (check_exit_cases e (close (ohlcv r)) (timestamp (ohlcv r)))
      as [Hc | Hc]; rewrite Hc; cbn [fst snd].
    + rewrite Hopen. cbn [negb]. rewrite andb_false_r, andb_true_r.
      apply invariant_equity.
      destruct (should_sell strategy df i); auto using invariant_sell.
    + now apply invariant_sell.
  - rewrite Hopen. cbn [negb]. rewrite andb_true_r, andb_false_r.
    apply invariant_equity.
    destruct (should_buy strategy df i); auto using invariant_buy.
Qed.

Lemma invariant_loop (strategy : GoldenCrossStrategy) (df : SignalFrame)
    (l : list nat) (e : Engine) :
  ledger_invariant e -> ledger_invariant (fold_left (tick strategy df) l e).
Proof.
  apply fold_left_invariant. intros a b. apply invariant_tick.
Qed.

Lemma last_some {A : Type} (l : list A) :
  l <> [] -> exists r, last (map Some l) None = Some r.
Proof.
  induction l as [|a l IH]; [congruence|]. intros _.
  destruct l as [|b l]; [now exists a|].
  destruct IH as [r Hr]; [discriminate|]. exists r. exact Hr.
Qed.

Lemma open_after_loop_has_rows (strategy : GoldenCrossStrategy)
    (df : SignalFrame) (b : Q) :
  has_position (fold_left (tick strategy df) (processed strategy df) (init b))
  = true ->
  rows df <> [].
Proof.
  intros Hopen Hnil. unfold processed in Hopen. rewrite Hnil in Hopen.
  cbn in Hopen. discriminate.
Qed.

(** ** End of a run *)

(** C5: on a frame of at least [long_period] rows and a new engine, the
    run ends with no position and a position size of 0; a position still open
    after the last turn of the loop is closed by one sell record at the close
    and the time of the last row, and a run that is flat after the loop is
    left as it is. *)
Theorem C5_run_ends_flat :
  forall (strategy : GoldenCrossStrategy) (df : SignalFrame) (b : Q),
    (long_period strategy <= length (rows df))%nat ->
    let e1 := fold_left (tick strategy df) (processed strategy df) (init b) in
    let e2 := execute_backtest strategy df (init b) in
    position e2 = None /\
    position_size e2 = 0 /\
    (has_position e1 = true ->
     exists r tr,
       iloc_last df = Some r /\
       trades e2 = trades e1 ++ [tr] /\
       Trade.type tr = sell /\
       Trade.price tr = close (ohlcv r) /\
       Trade.timestamp tr = timestamp (ohlcv r)) /\
    (has_position e1 = false -> e2 = e1).
Proof.
  intros strategy df b _ e1 e2.
  assert (Hinv : ledger_invariant e1).
  { apply invariant_loop, invariant_init. }
  unfold e2, execute_backtest, close_last_position. fold e1.
  destruct (has_position e1) eqn:Hopen.
  - destruct (last_some (rows df)) as [r Hr].
    { apply (open_after_loop_has_rows strategy df b). exact Hopen. }
    unfold iloc_last. rewrite Hr.
    unfold has_position in Hopen.
    destruct (position e1) as [s|] eqn:Hpos; [|discriminate].
    destruct (execute_sell_open e1 (close (ohlcv r)) (timestamp (ohlcv r)) s Hpos)
      as (tr & Htr & Hty & Hpr & Hts & Hnone & Hzero & _).
    repeat split; auto.
    + intros _. exists r, tr. auto.
    + discriminate.
  - unfold has_position in Hopen.
    destruct (position e1) as [s|] eqn:Hpos; [discriminate|].
    destruct Hinv as [_ Hsize].
    repeat split; auto. discriminate.
Qed.

Lemma C5_run_ends_flat_witness :
  let df := generate_signals open_end_rows in
  let e1 := fold_left (tick config_strategy df) (processed config_strategy df)
                      (init 10000) in
  let e2 := execute_backtest config_strategy df (init 10000) in
  position e2 = None /\
  position_size e2 = 0 /\
  (has_position e1 = true ->
   exists r tr,
     iloc_last df = Some r /\
     trades e2 = trades e1 ++ [tr] /\
     Trade.type tr = sell /\
     Trade.price tr = close (ohlcv r) /\
     Trade.timestamp tr = timestamp (ohlcv r)) /\
  (has_position e1 = false -> e2 = e1).
Proof.
  apply (C5_run_ends_flat config_strategy (generate_signals open_end_rows) 10000).
  vm_compute. lia.
Defined.

(** ** Order of the trade log *)

Lemma scan_log_sells_follow_buys (l : list trade_type) :
  forall (st : bool) (prev : option trade_type) (b : bool),
    (st = true <-> prev = Some buy) ->
    fold_left alternate l (Some st) = Some b ->
    sells_follow_buys prev l = true.
Proof.
  assert (Hnone : forall l', fold_left alternate l' None = None).
  { induction l' as [|x l' IH]; cbn; auto. }
  induction l as [|ty l IH]; intros st prev b Hst Hscan; [reflexivity|].
  cbn in Hscan. cbn.
  destruct st, ty; cbn in Hscan; try (rewrite Hnone in Hscan; discriminate).
  - assert (Hprev : prev = Some buy) by (now apply Hst). subst prev.
    apply (IH false (Some sell) b); [|exact Hscan].
    split; discriminate.
  - assert (Hprev : prev <> Some buy).
    { intro H. apply Hst in H. discriminate. }
    assert (Hgo : sells_follow_buys (Some buy) l = true).
    { apply (IH true (Some buy) b); [|exact Hscan]. split; auto. }
    destruct prev as [[|]|]; auto; congruence.
Qed.

(** C10: in the log of a run on a new engine, read from the start, a buy
    comes only when no position is open and a sell only when one is, so the
    records alternate starting with a buy, every sell comes right after a
    buy, and the log ends flat. *)
Theorem C10_trade_log_alternates :
  forall (strategy : GoldenCrossStrategy) (df : SignalFrame) (b : Q),
    let e := execute_backtest strategy df (init b) in
    scan_log (map Trade.type (trades e)) = Some false /\
    sells_follow_buys None (map Trade.type (trades e)) = true /\
    (forall tr rest, trades e = tr :: rest -> Trade.type tr = buy).
Proof.
  intros strategy df b e.
  assert (Hinv : ledger_invariant e).
  { unfold e, execute_backtest, close_last_position.
    set (e1 := fold_left _ _ _).
    assert (H1 : ledger_invariant e1) by apply invariant_loop, invariant_init.
    destruct (has_position e1); [|exact H1].
    destruct (iloc_last df); [apply invariant_sell|]; exact H1. }
  assert (Hflat : has_position e = false).
  { unfold e, execute_backtest, close_last_position.
    set (e1 := fold_left _ _ _).
    destruct (has_position e1) eqn:Hopen; [|exact Hopen].
    destruct (last_some (rows df)) as [r Hr].
    { apply (open_after_loop_has_rows strategy df b). exact Hopen. }
    unfold iloc_last. rewrite Hr. unfold has_position in *.
    destruct (position e1) as [s|] eqn:Hpos; [|discriminate].
    destruct (execute_sell_open e1 (close (ohlcv r)) (timestamp (ohlcv r)) s Hpos)
      as (tr & _ & _ & _ & _ & Hnone & _).
    now rewrite Hnone. }
  destruct Hinv as [Hlog _]. rewrite Hflat in Hlog.
  split; [exact Hlog|]. split.
  - apply (scan_log_sells_follow_buys _ false None false); [|exact Hlog].
    split; discriminate.
  - intros tr rest Htr. rewrite Htr in Hlog. cbn in Hlog.
    destruct (Trade.type tr); [reflexivity|].
    cbn in Hlog. exfalso.
    assert (Hnone : forall l', fold_left alternate l' None = None).
    { induction l' as [|x l' IH]; cbn; auto. }
    unfold scan_log in Hlog. cbn in Hlog. rewrite Hnone in Hlog. discriminate.
Qed.

(** ** The buy rule *)

Lemma nth_error_map2 {A B C : Type} (f : A -> B -> C) (la : list A) :
  forall (lb : list B) (i : nat),
    nth_error (map2 f la lb) i
    = match nth_error la i, nth_error lb i with
      | Some a, Some b => Some (f a b)
      | _, _ => None
      end.
Proof.
  induction la as [|a la IH]; intros lb i.
  - now destruct i.
  - destruct lb as [|b lb].
    + cbn. destruct i; cbn; [reflexivity|]. now destruct (nth_error la i).
    + destruct i; cbn; [reflexivity|]. apply IH.
Qed.

Lemma nth_error_removelast {A : Type} (s : list A) :
  forall i, (S i < length s)%nat ->
            nth_error (removelast s) i = nth_error s i.
Proof.
  induction s as [|a s IH]; intros i Hi; [cbn in Hi; lia|].
  destruct s as [|b s]; [cbn in Hi; lia|].
  destruct i as [|j]; [reflexivity|].
  change (nth_error (removelast (b :: s)) j = nth_error (b :: s) j).
  apply IH. cbn in Hi |- *. lia.
Qed.

Lemma nth_error_shift (s : list cell) (i : nat) (x : cell) :
  nth_error s (S i) = Some x ->
  nth_error (shift s) (S i) = nth_error s i.
Proof.
  intros Hx. destruct s as [|a s]; [discriminate|].
  unfold shift. change (nth_error (removelast (a :: s)) i = nth_error (a :: s) i).
  apply nth_error_removelast.
  apply nth_error_Some. congruence.
Qed.

Lemma col_at (f : Row -> cell) (df : list Row) (i : nat) (r : Row) :
  nth_error df i = Some r -> nth_error (col f df) i = Some (f r).
Proof. intros H. unfold col. now rewrite nth_error_map, H. Qed.

Lemma shift_col_at (f : Row -> cell) (df : list Row) (i : nat) (p r : Row) :
  nth_error df i = Some p -> nth_error df (S i) = Some r ->
  nth_error (shift (col f df)) (S i) = Some (f p).
Proof.
  intros Hp Hr.
  rewrite (nth_error_shift _ _ (f r)); [|now apply col_at].
  now apply col_at.
Qed.

(** The cell of [buy_signal] on a row that has a row before it. *)
Lemma buy_signal_at (df : list Row) (i : nat) (p r : Row) :
  nth_error df i = Some p -> nth_error df (S i) = Some r ->
  nth (S i) (buy_signal (generate_signals df)) false
  = cmp Qgtb (MA_short r) (MA_long r) && cmp Qleb (MA_short p) (MA_long p)
    && negb (cmp Qgtb (RSI r) (Some 70))
    && negb (cmp Qgtb (Some (close (ohlcv r))) (BB_upper r))
    && (cmp Qgtb (MACD r) (MACD_signal r)
        && cmp Qleb (MACD p) (MACD_signal p))
    && cmp Qgtb (Some (volume (ohlcv r))) (Volume_MA r).
Proof.
  intros Hp Hr. apply nth_error_nth.
  cbn [generate_signals buy_signal].
  unfold series_and, series_not, series_gt, series_le, series_gt_const,
    col_close, col_volume.
  repeat rewrite nth_error_map2.
  repeat rewrite nth_error_map.
  repeat rewrite (shift_col_at _ df i p r Hp Hr).
  repeat rewrite (col_at _ df (S i) r Hr).
  repeat rewrite nth_error_map2.
  repeat rewrite (shift_col_at _ df i p r Hp Hr).
  repeat rewrite (col_at _ df (S i) r Hr).
  rewrite Hr. reflexivity.
Qed.

(** C2: at an index whose row and whose previous row have the indicators
    defined, [buy_signal] is true exactly when the five conditions hold
    together: the short average was at or below the long one on the previous
    row and is above it now; RSI is at most 70; the close is at most the
    upper band; MACD was at or below its signal line on the previous row and
    is above it now; the volume is above its average. *)
Theorem C2_buy_signal_iff_five_conditions :
  forall (df : list Row) (i : nat) (p r : Row)
         (s_prev l_prev m_prev g_prev s l rsi upper m g v_ma : Q),
    nth_error df i = Some p ->
    nth_error df (S i) = Some r ->
    MA_short p = Some s_prev -> MA_long p = Some l_prev ->
    MACD p = Some m_prev -> MACD_signal p = Some g_prev ->
    MA_short r = Some s -> MA_long r = Some l ->
    RSI r = Some rsi -> BB_upper r = Some upper ->
    MACD r = Some m -> MACD_signal r = Some g ->
    Volume_MA r = Some v_ma ->
    nth (S i) (buy_signal (generate_signals df)) false = true <->
    (s_prev <= l_prev /\ s > l) /\
    rsi <= 70 /\
    close (ohlcv r) <= upper /\
    (m_prev <= g_prev /\ m > g) /\
    volume (ohlcv r) > v_ma.
Proof.
  intros df i p r s_prev l_prev m_prev g_prev s l rsi upper m g v_ma
         Hp Hr Hsp Hlp Hmp Hgp Hs Hl Hrsi Hup Hm Hg Hv.
  rewrite (buy_signal_at df i p r Hp Hr).
  rewrite Hsp, Hlp, Hmp, Hgp, Hs, Hl, Hrsi, Hup, Hm, Hg, Hv. cbn [cmp].
  repeat rewrite andb_true_iff. repeat rewrite negb_true_iff.
  rewrite !Qgtb_gt, !Qleb_le, !Qgtb_not_gt.
  tauto.
Qed.

Lemma C2_buy_signal_iff_five_conditions_witness :
  nth 30 (buy_signal (generate_signals stop_loss_rows)) false = true <->
  (99 <= 100 /\ 101 > 100) /\
  50 <= 70 /\
  100 <= 200 /\
  (-1 <= 0 /\ 1 > 0) /\
  10 > 5.
Proof.
  apply (C2_buy_signal_iff_five_conditions stop_loss_rows 29
           (quiet_row 29 100 99 100 (-1) 0) (quiet_row 30 100 101 100 1 0));
    reflexivity.
Defined.

(** ** Too few candles *)

(** C6: with fewer candles than the long period, [run_backtest] on a new
    engine returns nothing and leaves the engine as it was built: no trade,
    no equity point, and every statistic at its initial zero.  The outcome is
    the same whatever the indicator and statistics functions are: none of
    them is evaluated. *)
Theorem C6_short_input_keeps_defaults :
  forall (libs : Libs) (data : list Candle) (b : Q),
    (length data < Config.LONG_MA_PERIOD)%nat ->
    let out := run_backtest libs (Some data) (init b) in
    fst out = None /\
    snd out = init b /\
    trades (snd out) = [] /\
    equity_curve (snd out) = [] /\
    total_trades (results (snd out)) = 0%Z /\
    winning_trades (results (snd out)) = 0%Z /\
    losing_trades (results (snd out)) = 0%Z /\
    total_return (results (snd out)) = 0 /\
    win_rate (results (snd out)) = 0 /\
    max_drawdown (results (snd out)) = 0 /\
    sharpe_ratio (results (snd out)) = 0 /\
    profit_factor (results (snd out)) = 0 /\
    (forall libs' : Libs, run_backtest libs' (Some data) (init b) = out).
Proof.
  intros libs data b Hshort out.
  assert (Hrun : forall l, run_backtest l (Some data) (init b) = (None, init b)).
  { intro l. unfold run_backtest. cbn [long_period].
    apply Nat.ltb_lt in Hshort. now rewrite Hshort. }
  unfold out. rewrite Hrun. cbn.
  repeat split. intro libs'. apply Hrun.
Qed.

Lemma C6_short_input_keeps_defaults_witness :
  let out := run_backtest sample_libs (Some (firstn 29 sample_candles))
                          (init 10000) in
  fst out = None /\
  snd out = init 10000 /\
  trades (snd out) = [] /\
  equity_curve (snd out) = [] /\
  total_trades (results (snd out)) = 0%Z /\
  winning_trades (results (snd out)) = 0%Z /\
  losing_trades (results (snd out)) = 0%Z /\
  total_return (results (snd out)) = 0 /\
  win_rate (results (snd out)) = 0 /\
  max_drawdown (results (snd out)) = 0 /\
  sharpe_ratio (results (snd out)) = 0 /\
  profit_factor (results (snd out)) = 0 /\
  (forall libs' : Libs,
      run_backtest libs' (Some (firstn 29 sample_candles)) (init 10000) = out).
Proof.
  apply (C6_short_input_keeps_defaults sample_libs (firstn 29 sample_candles) 10000).
  vm_compute. lia.
Defined.

(** ** Counters and profit factor *)

Lemma Qsum_nil_or (l : list Q) :
  match l with [] => 0 | x :: l' => Qsum (x :: l') end = Qsum l.
Proof. now destruct l. Qed.

Lemma winning_profits_filter (ts : list Trade.t) :
  winning_profits ts = filter (fun p => Qgtb p 0) (realized_profits ts).
Proof.
  induction ts as [|t ts IH]; [reflexivity|].
  cbn. destruct (Trade.type t); [exact IH|].
  destruct (Trade.profit t) as [p|]; [|exact IH].
  cbn. destruct (Qgtb p 0); cbn; now rewrite IH.
Qed.

Lemma losing_profits_filter (ts : list Trade.t) :
  losing_profits ts
  = map Qabs (filter (fun p => negb (Qgtb p 0)) (realized_profits ts)).
Proof.
  induction ts as [|t ts IH]; [reflexivity|].
  cbn. destruct (Trade.type t); [exact IH|].
  destruct (Trade.profit t) as [p|]; [|exact IH].
  cbn. destruct (Qgtb p 0); cbn; now rewrite IH.
Qed.

Lemma total_wins_gross_profit (ts : list Trade.t) :
  total_wins ts = gross_profit ts.
Proof.
  unfold total_wins, gross_profit.
  now rewrite Qsum_nil_or, winning_profits_filter.
Qed.

(** A sell that broke even adds nothing to the losses. *)
Lemma sum_abs_nonpositive (l : list Q) :
  forall a a' : Q,
    a == a' ->
    fold_left Qplus (map Qabs (filter (fun p => negb (Qgtb p 0)) l)) a
    == fold_left Qplus (map Qabs (filter (fun p => Qltb p 0) l)) a'.
Proof.
  induction l as [|p l IH]; intros a a' Ha; [exact Ha|].
  cbn [filter].
  destruct (Qgtb p 0) eqn:Hgt; cbn [negb].
  - assert (Hlt : Qltb p 0 = false).
    { apply Qgtb_gt in Hgt. apply not_true_iff_false. intro H.
      apply Qltb_lt in H. apply (Qlt_irrefl 0). now apply Qlt_trans with p. }
    rewrite Hlt. now apply IH.
  - apply Qgtb_not_gt in Hgt.
    destruct (Qltb p 0) eqn:Hlt; cbn [map fold_left].
    + apply IH. now rewrite Ha.
    + apply IH.
      assert (Hzero : p == 0).
      { apply Qle_antisym; [exact Hgt|].
        apply Qnot_lt_le. intro H. apply Qltb_lt in H. congruence. }
      rewrite Hzero, Ha. cbn. ring.
Qed.

Lemma total_losses_gross_loss (ts : list Trade.t) :
  total_losses ts == gross_loss ts.
Proof.
  unfold total_losses, gross_loss.
  rewrite Qsum_nil_or, losing_profits_filter. unfold Qsum.
  apply sum_abs_nonpositive. reflexivity.
Qed.

Lemma gross_loss_no_loser (ts : list Trade.t) :
  losing_count ts = O -> gross_loss ts == 0.
Proof.
  intros Hnone. rewrite <- total_losses_gross_loss.
  unfold total_losses. rewrite losing_profits_filter.
  unfold losing_count in Hnone. apply length_zero_iff_nil in Hnone.
  rewrite Hnone. reflexivity.
Qed.

(** C7, as stated, fails when a losing trade exists but every losing trade
    broke even.  After a gain of 900 and a sell at the entry price, one
    winning and one losing trade are counted, the gross profit is 900 and the
    gross loss is 0: no quotient of the two exists, and the code reports a
    profit factor of 0. *)
Lemma C7_break_even_loser_has_no_quotient :
  winning_trades (results break_even_engine) = 1%Z /\
  losing_trades (results break_even_engine) = 1%Z /\
  losing_count (trades break_even_engine) = 1%nat /\
  gross_profit (trades break_even_engine) == 900 /\
  gross_loss (trades break_even_engine) == 0 /\
  (forall q : Q,
      ~ q * gross_loss (trades break_even_engine)
        == gross_profit (trades break_even_engine)) /\
  spec_profit_factor (trades break_even_engine) = None /\
  (forall libs : Libs,
      profit_factor (results (calculate_results libs break_even_engine)) == 0 /\
      ~ (exists q,
            spec_profit_factor (trades break_even_engine) = Some q /\
            profit_factor (results (calculate_results libs break_even_engine))
            == q)).
Proof.
  assert (Hp : gross_profit (trades break_even_engine) == 900) by reflexivity.
  assert (Hl : gross_loss (trades break_even_engine) == 0) by reflexivity.
  assert (Hs : spec_profit_factor (trades break_even_engine) = None)
    by reflexivity.
  split; [reflexivity|]. split; [reflexivity|]. split; [reflexivity|].
  split; [exact Hp|]. split; [exact Hl|]. split.
  { intros q Hq. rewrite Hp, Hl in Hq. revert Hq.
    rewrite Qmult_0_r. discriminate. }
  split; [exact Hs|].
  intro libs. split; [reflexivity|].
  intros [q [Hq _]]. rewrite Hs in Hq. discriminate.
Qed.

(** C7, amended: a sell of an open position counts one more trade, as a
    winning trade when its realized profit is above 0 and as a losing trade
    otherwise, a profit of exactly 0 included.  On an engine whose profit
    factor is still 0, the profit factor becomes the sum of the positive
    realized profits divided by the sum of the absolute values of the
    negative ones when that second sum is above 0, and stays 0 otherwise,
    which covers a log without any losing trade. *)
Theorem C7_counters_and_profit_factor :
  forall (e e0 : Engine) (s : side) (p : Q) (t : Z),
    position e = Some s ->
    profit_factor (results e0) == 0 ->
    (exists tr pr,
        trades (execute_sell e p t) = trades e ++ [tr] /\
        Trade.type tr = sell /\ Trade.profit tr = Some pr /\
        total_trades (results (execute_sell e p t))
        = (total_trades (results e) + 1)%Z /\
        (pr > 0 ->
         winning_trades (results (execute_sell e p t))
         = (winning_trades (results e) + 1)%Z /\
         losing_trades (results (execute_sell e p t))
         = losing_trades (results e)) /\
        (pr <= 0 ->
         winning_trades (results (execute_sell e p t))
         = winning_trades (results e) /\
         losing_trades (results (execute_sell e p t))
         = (losing_trades (results e) + 1)%Z)) /\
    (gross_loss (trades e0) > 0 ->
     profit_factor (results (calculate_profit_factor e0))
     == gross_profit (trades e0) / gross_loss (trades e0)) /\
    (~ gross_loss (trades e0) > 0 ->
     profit_factor (results (calculate_profit_factor e0)) == 0) /\
    (losing_count (trades e0) = O ->
     profit_factor (results (calculate_profit_factor e0)) == 0).
Proof.
  intros e e0 s p t Hpos Hzero.
  assert (Hguard : Qgtb (total_losses (trades e0)) 0 = true
                   <-> gross_loss (trades e0) > 0).
  { rewrite Qgtb_gt. now rewrite total_losses_gross_loss. }
  assert (Hnot : ~ gross_loss (trades e0) > 0 ->
                 profit_factor (results (calculate_profit_factor e0)) == 0).
  { intros Hno. unfold calculate_profit_factor.
    destruct (Qgtb (total_losses (trades e0)) 0) eqn:Hg; [|exact Hzero].
    exfalso. apply Hno. now apply Hguard. }
  split.
  { unfold execute_sell, execute_sell_body. rewrite Hpos. cbn.
    eexists. eexists. split; [reflexivity|].
    split; [reflexivity|]. split; [reflexivity|]. split; [reflexivity|].
    split.
    - intros Hwin. apply Qgtb_gt in Hwin. now rewrite Hwin.
    - intros Hlose. apply Qgtb_not_gt in Hlose. now rewrite Hlose. }
  split.
  { intros Hloss. unfold calculate_profit_factor.
    apply Hguard in Hloss. rewrite Hloss. cbn.
    now rewrite total_wins_gross_profit, total_losses_gross_loss. }
  split; [exact Hnot|].
  intros Hnone. apply Hnot.
  rewrite (gross_loss_no_loser _ Hnone). apply Qlt_irrefl.
Qed.

Lemma C7_counters_and_profit_factor_witness :
  let e := execute_buy (init 10000) 100 1 in
  let e0 := losing_engine in
  (exists tr pr,
      trades (execute_sell e 90 2) = trades e ++ [tr] /\
      Trade.type tr = sell /\ Trade.profit tr = Some pr /\
      total_trades (results (execute_sell e 90 2))
      = (total_trades (results e) + 1)%Z /\
      (pr > 0 ->
       winning_trades (results (execute_sell e 90 2))
       = (winning_trades (results e) + 1)%Z /\
       losing_trades (results (execute_sell e 90 2))
       = losing_trades (results e)) /\
      (pr <= 0 ->
       winning_trades (results (execute_sell e 90 2))
       = winning_trades (results e) /\
       losing_trades (results (execute_sell e 90 2))
       = (losing_trades (results e) + 1)%Z)) /\
  (gross_loss (trades e0) > 0 ->
   profit_factor (results (calculate_profit_factor e0))
   == gross_profit (trades e0) / gross_loss (trades e0)) /\
  (~ gross_loss (trades e0) > 0 ->
   profit_factor (results (calculate_profit_factor e0)) == 0) /\
  (losing_count (trades e0) = O ->
   profit_factor (results (calculate_profit_factor e0)) == 0).
Proof.
  intros e e0.
  apply (C7_counters_and_profit_factor e e0 long 90 2); reflexivity.
Defined.

(** ** One result per run *)

Section RelationalFacts.
Variable strategy : GoldenCrossStrategy.
Variable df : SignalFrame.


Lemma tick_fn_rel (i : nat) (e : Engine) (r : Row) :
  nth_error (rows df) i = Some r ->
  tick_rel strategy df i e (tick strategy df e i).
Proof.
  intros Hrow. unfold tick. rewrite Hrow.
  destruct (has_position e) eqn:Hopen.
  - destruct (check_exit_cases e (close (ohlcv r)) (timestamp (ohlcv r)))
      as [Hc | Hc]; rewrite Hc; cbn [fst snd].
    + rewrite Hopen. cbn [negb]. rewrite andb_false_r, andb_true_r.
      destruct (should_sell strategy df i) eqn:Hsell.
      * now apply tick_sell.
      * apply tick_hold; auto; congruence.
    + now apply (tick_exit strategy df i e r).
  - cbn [fst snd]. rewrite Hopen. cbn [negb].
    rewrite andb_true_r, andb_false_r.
    destruct (should_buy strategy df i) eqn:Hbuy.
    + now apply tick_buy.
    + apply tick_hold; auto; congruence.
Qed.



Lemma processed_in_range (i : nat) :
  In i (processed strategy df) -> (i < length (rows df))%nat.
Proof. unfold processed. rewrite in_seq. lia. Qed.


End RelationalFacts.





(** * Further properties of the backtest *)

(** ** Paths of one turn of the loop *)

Lemma tick_cases (strategy : GoldenCrossStrategy) (df : SignalFrame)
    (e : Engine) (i : nat) :
  (nth_error (rows df) i = None /\ tick strategy df e i = e) \/
  exists r,
    nth_error (rows df) i = Some r /\
    ((has_position e = true /\
      tick strategy df e i
      = execute_sell e (close (ohlcv r)) (timestamp (ohlcv r))) \/
     (has_position e = false /\
      tick strategy df e i
      = update_equity_curve
          (execute_buy e (close (ohlcv r)) (timestamp (ohlcv r)))
          (close (ohlcv r)) (timestamp (ohlcv r))) \/
     (has_position e = true /\
      tick strategy df e i
      = update_equity_curve
          (execute_sell e (close (ohlcv r)) (timestamp (ohlcv r)))
          (close (ohlcv r)) (timestamp (ohlcv r))) \/
     tick strategy df e i
     = update_equity_curve e (close (ohlcv r)) (timestamp (ohlcv r))).
Proof.
  destruct (nth_error (rows df) i) as [r|] eqn:Hrow.
  - right. exists r. split; [reflexivity|].
    pose proof (tick_fn_rel strategy df i e r Hrow) as Hrel.
    inversion Hrel as [e0 r0 e' Hr Hopen Hcheck
                      | e0 r0 Hr Hflat Hbuy
                      | e0 r0 Hr Hopen Hcheck Hsell
                      | e0 r0 Hr Hcheck Hbuy Hsell]; subst;
      rewrite Hrow in Hr; injection Hr as <-.
    + left. split; [exact Hopen|].
      destruct (check_exit_cases e (close (ohlcv r)) (timestamp (ohlcv r)))
        as [Hc | Hc]; rewrite Hc in Hcheck; [discriminate|].
      now injection Hcheck as <-.
    + right. left. split; [exact Hflat|]. congruence.
    + right. right. left. split; [exact Hopen|]. congruence.
    + right. right. right. congruence.
  - left. split; [reflexivity|]. unfold tick. now rewrite Hrow.
Qed.

Lemma iloc_last_in (df : SignalFrame) (r : Row) :
  iloc_last df = Some r -> In r (rows df).
Proof.
  unfold iloc_last. induction (rows df) as [|a l IH]; [discriminate|].
  destruct l as [|b l].
  - cbn. intros [= ->]. now left.
  - intros H. right. apply IH. exact H.
Qed.

(** A property kept by the three ledger operations, at every price the
    frame can give them, is kept by a whole run. *)
Section RunInvariant.
Variable P : Engine -> Prop.
Variable ok : Q -> Prop.
Variable strategy : GoldenCrossStrategy.
Variable df : SignalFrame.
Hypothesis rows_ok : forall r, In r (rows df) -> ok (close (ohlcv r)).
Hypothesis buy_ok :
  forall e p t, ok p -> P e -> has_position e = false -> P (execute_buy e p t).
Hypothesis sell_ok : forall e p t, ok p -> P e -> P (execute_sell e p t).
Hypothesis equity_ok :
  forall e p t, ok p -> P e -> P (update_equity_curve e p t).

Lemma tick_preserves (e : Engine) (i : nat) :
  P e -> P (tick strategy df e i).
Proof.
  intros He.
  destruct (tick_cases strategy df e i)
    as [[_ ->] | (r & Hrow & [[_ ->] | [[Hflat ->] | [[_ ->] | ->]]])];
    auto;
    assert (Hok : ok (close (ohlcv r)))
      by (apply rows_ok; eapply nth_error_In; exact Hrow);
    auto.
Qed.

Lemma loop_preserves (l : list nat) (e : Engine) :
  P e -> P (fold_left (tick strategy df) l e).
Proof.
  apply fold_left_invariant. intros a i. apply tick_preserves.
Qed.

Lemma run_preserves (e : Engine) :
  P e -> P (execute_backtest strategy df e).
Proof.
  intros He. unfold execute_backtest, close_last_position.
  set (e1 := fold_left _ _ _).
  assert (H1 : P e1) by now apply loop_preserves.
  destruct (has_position e1); [|exact H1].
  destruct (iloc_last df) as [r|] eqn:Hlast; [|exact H1].
  apply sell_ok; [|exact H1]. apply rows_ok. now apply iloc_last_in.
Qed.
End RunInvariant.

(** ** Arithmetic of a round trip *)

(** X1: a buy at a price other than 0 followed by a sell, with nothing in
    between, changes the balance by exactly the realized profit written on
    the sell record, which is nine tenths of the starting balance times the
    relative price change; a sell at the buying price gives the starting
    balance back. *)
Theorem X1_round_trip_balance :
  forall (e : Engine) (p q : Q) (t1 t2 : Z),
    ~ p == 0 ->
    let e2 := execute_sell (execute_buy e p t1) q t2 in
    exists tb ts pr,
      trades e2 = trades e ++ [tb; ts] /\
      Trade.type tb = buy /\ Trade.type ts = sell /\
      Trade.profit ts = Some pr /\
      pr == (9 # 10) * balance e * ((q - p) / p) /\
      balance e2 == balance e + pr /\
      Trade.balance ts == balance e + pr /\
      (q == p -> balance e2 == balance e).
Proof.
  intros e p q t1 t2 Hp e2.
  unfold e2, execute_sell, execute_sell_body, execute_buy, execute_buy_body.
  cbn [position position_size balance entry_price trades].
  do 3 eexists. rewrite <- app_assoc. cbn [app].
  split; [reflexivity|]. cbn [Trade.type Trade.profit Trade.balance].
  split; [reflexivity|]. split; [reflexivity|]. split; [reflexivity|].
  split; [field; exact Hp|].
  split; [field; exact Hp|].
  split; [field; exact Hp|].
  intros Hq. rewrite Hq. field. exact Hp.
Qed.

Lemma X1_round_trip_balance_witness :
  let e2 := execute_sell (execute_buy (init 10000) 100 1) 110 2 in
  exists tb ts pr,
    trades e2 = trades (init 10000) ++ [tb; ts] /\
    Trade.type tb = buy /\ Trade.type ts = sell /\
    Trade.profit ts = Some pr /\
    pr == (9 # 10) * balance (init 10000) * ((110 - 100) / 100) /\
    balance e2 == balance (init 10000) + pr /\
    Trade.balance ts == balance (init 10000) + pr /\
    (110 == 100 -> balance e2 == balance (init 10000)).
Proof.
  apply (X1_round_trip_balance (init 10000) 100 110 1 2). discriminate.
Defined.

(** X2: a buy does not change the equity: the equity point recorded at the
    buying price right after a buy from a flat engine equals the balance
    before the buy. *)
Theorem X2_buy_keeps_equity :
  forall (e : Engine) (p : Q) (t : Z),
    ~ p == 0 ->
    exists pt,
      equity_curve (update_equity_curve (execute_buy e p t) p t)
      = equity_curve e ++ [pt] /\
      Equity.equity pt == balance e /\
      Equity.price pt = p /\ Equity.timestamp pt = t.
Proof.
  intros e p t Hp.
  unfold update_equity_curve, execute_buy, execute_buy_body.
  cbn [position position_size balance equity_curve].
  eexists. split; [reflexivity|].
  cbn [Equity.equity Equity.price Equity.timestamp].
  split; [field; exact Hp|]. split; reflexivity.
Qed.

Lemma X2_buy_keeps_equity_witness :
  exists pt,
    equity_curve (update_equity_curve (execute_buy (init 10000) 100 1) 100 1)
    = equity_curve (init 10000) ++ [pt] /\
    Equity.equity pt == balance (init 10000) /\
    Equity.price pt = 100 /\ Equity.timestamp pt = 1%Z.
Proof.
  apply (X2_buy_keeps_equity (init 10000) 100 1). discriminate.
Defined.

(** ** The ledger stays positive *)

Lemma positive_init (b : Q) : 0 < b -> positive_ledger (init b).
Proof.
  intros Hb. unfold positive_ledger. cbn.
  refine (conj Hb (conj (Qle_refl 0) (conj _ (conj _ _)))).
  - discriminate.
  - constructor.
  - constructor.
Qed.

Lemma positive_buy (e : Engine) (p : Q) (t : Z) :
  0 < p -> positive_ledger e -> has_position e = false ->
  positive_ledger (execute_buy e p t).
Proof.
  intros Hp (Hbal & Hsize & Hshort & Htr & Heq) _.
  unfold positive_ledger, execute_buy, execute_buy_body.
  cbn [position position_size balance equity_curve trades].
  assert (Hrest : 0 < balance e - balance e * (9 # 10)) by lra.
  refine (conj Hrest (conj _ (conj _ (conj _ Heq)))).
  - apply Qle_shift_div_l; [exact Hp|]. lra.
  - discriminate.
  - apply Forall_app. split; [exact Htr|]. constructor; [|constructor].
    exact Hrest.
Qed.

Lemma positive_sell (e : Engine) (p : Q) (t : Z) :
  0 < p -> positive_ledger e -> positive_ledger (execute_sell e p t).
Proof.
  intros Hp (Hbal & Hsize & Hshort & Htr & Heq).
  unfold positive_ledger, execute_sell, execute_sell_body.
  destruct (position e) as [s|] eqn:Hpos; [|now rewrite Hpos].
  cbn [position position_size balance equity_curve trades].
  assert (Hgain : 0 < balance e + position_size e * p) by nra.
  refine (conj Hgain (conj (Qle_refl 0) (conj _ (conj _ Heq)))).
  - discriminate.
  - apply Forall_app. split; [exact Htr|]. constructor; [|constructor].
    exact Hgain.
Qed.

Lemma positive_equity (e : Engine) (p : Q) (t : Z) :
  0 < p -> positive_ledger e -> positive_ledger (update_equity_curve e p t).
Proof.
  intros Hp (Hbal & Hsize & Hshort & Htr & Heq).
  unfold positive_ledger, update_equity_curve.
  cbn [position position_size balance equity_curve trades].
  refine (conj Hbal (conj Hsize (conj Hshort (conj Htr _)))).
  apply Forall_app. split; [exact Heq|]. constructor; [|constructor].
  cbn [Equity.equity].
  destruct (position e) as [[|]|]; [nra|congruence|exact Hbal].
Qed.

(** X3: on a frame whose closes are all positive, a run that starts with a
    positive initial balance never brings the balance to zero or below: the
    final balance, the balance written on every trade record and the equity
    of every point of the curve are positive. *)
Theorem X3_ledger_stays_positive :
  forall (strategy : GoldenCrossStrategy) (df : SignalFrame) (b : Q),
    0 < b ->
    (forall r, In r (rows df) -> 0 < close (ohlcv r)) ->
    let e := execute_backtest strategy df (init b) in
    0 < balance e /\
    Forall (fun tr => 0 < Trade.balance tr) (trades e) /\
    Forall (fun pt => 0 < Equity.equity pt) (equity_curve e).
Proof.
  intros strategy df b Hb Hrows e.
  assert (Hpos : positive_ledger e).
  { apply (run_preserves positive_ledger (fun p => 0 < p) strategy df Hrows).
    - intros; now apply positive_buy.
    - intros; now apply positive_sell.
    - intros; now apply positive_equity.
    - now apply positive_init. }
  destruct Hpos as (H1 & _ & _ & H2 & H3). auto.
Qed.

Lemma X3_ledger_stays_positive_witness :
  let e := execute_backtest config_strategy (generate_signals stop_loss_rows)
                            (init 10000) in
  0 < balance e /\
  Forall (fun tr => 0 < Trade.balance tr) (trades e) /\
  Forall (fun pt => 0 < Equity.equity pt) (equity_curve e).
Proof.
  apply (X3_ledger_stays_positive config_strategy
           (generate_signals stop_loss_rows) 10000).
  - reflexivity.
  - intros r Hr. cbn [rows generate_signals] in Hr.
    repeat (destruct Hr as [<- | Hr]; [reflexivity|]). destruct Hr.
Defined.

(** ** Counters and log agree *)

Lemma sell_records_app (l1 l2 : list Trade.t) :
  sell_records (l1 ++ l2) = (sell_records l1 + sell_records l2)%nat.
Proof. unfold sell_records. now rewrite filter_app, length_app. Qed.

Lemma counters_init (b : Q) : counters_invariant (init b).
Proof. unfold counters_invariant. cbn. repeat split; lia. Qed.

Lemma counters_buy (e : Engine) (p : Q) (t : Z) :
  counters_invariant e -> counters_invariant (execute_buy e p t).
Proof.
  unfold counters_invariant, execute_buy, execute_buy_body.
  cbn [results trades]. rewrite sell_records_app.
  cbn. rewrite Nat.add_0_r. auto.
Qed.

Lemma counters_sell (e : Engine) (p : Q) (t : Z) :
  counters_invariant e -> counters_invariant (execute_sell e p t).
Proof.
  unfold counters_invariant, execute_sell, execute_sell_body.
  destruct (position e) as [s|]; [|auto].
  cbn [results trades]. rewrite sell_records_app.
  unfold count_sell.
  cbn [total_trades winning_trades losing_trades total_return max_drawdown
       sharpe_ratio win_rate profit_factor].
  change (sell_records [_]) with 1%nat.
  intros (H1 & H2 & H3 & H4 & H5).
  destruct (Qgtb _ 0); repeat split; try lia; apply H5.
Qed.

Lemma counters_equity (e : Engine) (p : Q) (t : Z) :
  counters_invariant e -> counters_invariant (update_equity_curve e p t).
Proof. unfold counters_invariant, update_equity_curve. cbn. auto. Qed.

Lemma counters_run (strategy : GoldenCrossStrategy) (df : SignalFrame)
    (e : Engine) :
  counters_invariant e -> counters_invariant (execute_backtest strategy df e).
Proof.
  apply (run_preserves counters_invariant (fun _ => True) strategy df);
    auto using counters_buy, counters_sell, counters_equity.
Qed.

Lemma run_log_ends_flat (strategy : GoldenCrossStrategy) (df : SignalFrame)
    (b : Q) :
  scan_log (map Trade.type (trades (execute_backtest strategy df (init b))))
  = Some false.
Proof.
  set (e := execute_backtest strategy df (init b)).
  assert (Hinv : ledger_invariant e).
  { apply (run_preserves ledger_invariant (fun _ => True) strategy df);
      auto using invariant_buy, invariant_sell, invariant_equity,
                 invariant_init. }
  assert (Hflat : has_position e = false).
  { unfold e, execute_backtest, close_last_position.
    set (e1 := fold_left _ _ _).
    destruct (has_position e1) eqn:Hopen; [|exact Hopen].
    destruct (last_some (rows df)) as [r Hr].
    { apply (open_after_loop_has_rows strategy df b). exact Hopen. }
    unfold iloc_last. rewrite Hr. unfold has_position in *.
    destruct (position e1) as [s|] eqn:Hpos; [|discriminate].
    destruct (execute_sell_open e1 (close (ohlcv r)) (timestamp (ohlcv r)) s Hpos)
      as (tr & _ & _ & _ & _ & Hnone & _).
    now rewrite Hnone. }
  destruct Hinv as [Hlog _]. now rewrite Hflat in Hlog.
Qed.

Lemma scan_log_counts (ts : list Trade.t) :
  forall st b : bool,
    fold_left alternate (map Trade.type ts) (Some st) = Some b ->
    (length ts + (if st then 1 else 0)
     = 2 * sell_records ts + (if b then 1 else 0))%nat.
Proof.
  assert (Hnone : forall l', fold_left alternate l' None = None).
  { induction l' as [|x l' IH]; cbn; auto. }
  induction ts as [|t ts IH]; intros st b Hscan.
  - cbn in Hscan. injection Hscan as <-. cbn. lia.
  - cbn [map fold_left] in Hscan. unfold sell_records, is_sell in *.
    cbn [filter length].
    destruct st, (Trade.type t); cbn [alternate] in Hscan;
      try (rewrite Hnone in Hscan; discriminate);
      apply IH in Hscan; cbn [length]; lia.
Qed.

(** X4: at the end of a run on a new engine the counters agree with the
    log: [total_trades] is the number of sell records, it is the sum of the
    winning and the losing trades, and the log holds exactly two records, a
    buy and its sell, for each counted trade. *)
Theorem X4_counters_match_log :
  forall (strategy : GoldenCrossStrategy) (df : SignalFrame) (b : Q),
    let e := execute_backtest strategy df (init b) in
    total_trades (results e) = Z.of_nat (sell_records (trades e)) /\
    total_trades (results e)
    = (winning_trades (results e) + losing_trades (results e))%Z /\
    (0 <= winning_trades (results e))%Z /\
    (0 <= losing_trades (results e))%Z /\
    Z.of_nat (length (trades e)) = (2 * total_trades (results e))%Z.
Proof.
  intros strategy df b e.
  destruct (counters_run strategy df (init b) (counters_init b))
    as (H1 & H2 & H3 & H4 & _).
  fold e in H1, H2, H3, H4.
  pose proof (scan_log_counts (trades e) false false
                (run_log_ends_flat strategy df b)) as Hlen.
  repeat split; auto. lia.
Qed.

(** ** Maximum drawdown *)







(** ** Ranges of the statistics of a run *)







Lemma ratio_percent_range (w t : Z) :
  (0 <= w <= t)%Z -> (0 < t)%Z ->
  0 <= inject_Z w / inject_Z t * 100 /\ inject_Z w / inject_Z t * 100 <= 100.
Proof.
  intros Hw Ht.
  assert (Ht' : 0 < inject_Z t).
  { change 0 with (inject_Z 0). rewrite <- Zlt_Qlt. exact Ht. }
  assert (Hw0 : 0 <= inject_Z w).
  { change 0 with (inject_Z 0). rewrite <- Zle_Qle. lia. }
  assert (Hwt : inject_Z w <= inject_Z t).
  { rewrite <- Zle_Qle. lia. }
  assert (H0 : 0 <= inject_Z w / inject_Z t).
  { apply Qle_shift_div_l; [exact Ht'|]. lra. }
  assert (H1 : inject_Z w / inject_Z t <= 1).
  { apply Qle_shift_div_r; [exact Ht'|]. lra. }
  split; lra.
Qed.



(** ** Size of the equity curve *)

Lemma tick_curve_growth (strategy : GoldenCrossStrategy) (df : SignalFrame)
    (e : Engine) (i : nat) :
  (i < length (rows df))%nat ->
  (length (equity_curve (tick strategy df e i))
   <= S (length (equity_curve e)))%nat /\
  (S (length (equity_curve e) + sell_records (trades e))
   <= length (equity_curve (tick strategy df e i))
      + sell_records (trades (tick strategy df e i)))%nat.
Proof.
  intros Hi.
  assert (Hsell : forall e0 p t,
             equity_curve (execute_sell e0 p t) = equity_curve e0 /\
             (sell_records (trades e0)
              <= sell_records (trades (execute_sell e0 p t)))%nat /\
             (has_position e0 = true ->
              sell_records (trades (execute_sell e0 p t))
              = S (sell_records (trades e0)))).
  { intros e0 p t. unfold execute_sell, execute_sell_body, has_position.
    destruct (position e0); cbn [equity_curve trades].
    - rewrite sell_records_app. cbn. repeat split; lia.
    - repeat split; auto. discriminate. }
  assert (Hbuy : forall e0 p t,
             equity_curve (execute_buy e0 p t) = equity_curve e0 /\
             sell_records (trades (execute_buy e0 p t))
             = sell_records (trades e0)).
  { intros e0 p t. unfold execute_buy, execute_buy_body.
    cbn [equity_curve trades]. rewrite sell_records_app. cbn.
    split; [reflexivity|lia]. }
  assert (Heq : forall e0 p t,
             length (equity_curve (update_equity_curve e0 p t))
             = S (length (equity_curve e0)) /\
             trades (update_equity_curve e0 p t) = trades e0).
  { intros e0 p t. unfold update_equity_curve. cbn [equity_curve trades].
    rewrite length_app. cbn. split; [lia|reflexivity]. }
  destruct (tick_cases strategy df e i)
    as [[Hnone _] | (r & Hrow & [[Hopen ->] | [[Hflat ->] | [[Hopen ->] | ->]]])].
  - apply nth_error_None in Hnone. lia.
  - destruct (Hsell e (close (ohlcv r)) (timestamp (ohlcv r)))
      as (S1 & _ & S3). rewrite S1, (S3 Hopen). lia.
  - destruct (Heq (execute_buy e (close (ohlcv r)) (timestamp (ohlcv r)))
                  (close (ohlcv r)) (timestamp (ohlcv r))) as [E1 E2].
    destruct (Hbuy e (close (ohlcv r)) (timestamp (ohlcv r))) as [B1 B2].
    rewrite E1, E2, B1, B2. lia.
  - destruct (Heq (execute_sell e (close (ohlcv r)) (timestamp (ohlcv r)))
                  (close (ohlcv r)) (timestamp (ohlcv r))) as [E1 E2].
    destruct (Hsell e (close (ohlcv r)) (timestamp (ohlcv r)))
      as (S1 & S2 & _).
    rewrite E1, E2, S1. lia.
  - destruct (Heq e (close (ohlcv r)) (timestamp (ohlcv r))) as [E1 E2].
    rewrite E1, E2. lia.
Qed.

Lemma loop_curve_growth (strategy : GoldenCrossStrategy) (df : SignalFrame)
    (l : list nat) :
  (forall i, In i l -> (i < length (rows df))%nat) ->
  forall e,
    (length (equity_curve (fold_left (tick strategy df) l e))
     <= length (equity_curve e) + length l)%nat /\
    (length (equity_curve e) + sell_records (trades e) + length l
     <= length (equity_curve (fold_left (tick strategy df) l e))
        + sell_records (trades (fold_left (tick strategy df) l e)))%nat.
Proof.
  induction l as [|i l IH]; intros Hin e; [cbn; lia|].
  cbn [fold_left length].
  destruct (tick_curve_growth strategy df e i) as [T1 T2].
  { apply Hin. now left. }
  destruct (IH (fun j Hj => Hin j (or_intror Hj)) (tick strategy df e i))
    as [L1 L2].
  lia.
Qed.

(** X7: a run on a new engine records at most one equity point for each
    processed candle, and the points it leaves out are no more than the
    trades it closed: the number of processed candles lies between the
    length of the equity curve and that length plus the number of sell
    records. *)
Theorem X7_equity_curve_size :
  forall (strategy : GoldenCrossStrategy) (df : SignalFrame) (b : Q),
    let e := execute_backtest strategy df (init b) in
    (length (equity_curve e) <= length (processed strategy df))%nat /\
    (length (processed strategy df)
     <= length (equity_curve e) + sell_records (trades e))%nat.
Proof.
  intros strategy df b e.
  destruct (loop_curve_growth strategy df (processed strategy df)
              (processed_in_range strategy df) (init b)) as [L1 L2].
  cbn [init equity_curve trades length sell_records] in L1, L2.
  change (sell_records []) with 0%nat in L2.
  unfold e, execute_backtest, close_last_position.
  set (e1 := fold_left _ _ _) in *.
  destruct (has_position e1); [|lia].
  destruct (iloc_last df) as [r|]; [|lia].
  unfold execute_sell, execute_sell_body.
  destruct (position e1); cbn [equity_curve trades]; [|lia].
  rewrite sell_records_app. lia.
Qed.

(** ** A run without a buy signal *)

Lemma tick_idle (strategy : GoldenCrossStrategy) (df : SignalFrame)
    (e : Engine) (i : nat) :
  position e = None ->
  should_buy strategy df i = false ->
  tick strategy df e i = e \/
  exists r, tick strategy df e i
            = update_equity_curve e (close (ohlcv r)) (timestamp (ohlcv r)).
Proof.
  intros Hflat Hbuy. unfold tick.
  destruct (nth_error (rows df) i) as [r|]; [|now left].
  right. exists r. unfold has_position. rewrite Hflat. cbn [fst snd].
  rewrite Hflat, Hbuy. cbn [andb]. now rewrite andb_false_r.
Qed.

Lemma loop_idle (strategy : GoldenCrossStrategy) (df : SignalFrame) (b : Q)
    (l : list nat) :
  (forall i, In i l -> should_buy strategy df i = false) ->
  forall e,
    position e = None -> balance e = b ->
    Forall (fun pt => Equity.equity pt = b) (equity_curve e) ->
    let e' := fold_left (tick strategy df) l e in
    position e' = None /\ balance e' = b /\
    trades e' = trades e /\ results e' = results e /\
    Forall (fun pt => Equity.equity pt = b) (equity_curve e').
Proof.
  induction l as [|i l IH]; intros Hno e Hflat Hbal Hcurve; [cbn; auto|].
  cbn [fold_left].
  assert (Hnext : position (tick strategy df e i) = None /\
                  balance (tick strategy df e i) = b /\
                  trades (tick strategy df e i) = trades e /\
                  results (tick strategy df e i) = results e /\
                  Forall (fun pt => Equity.equity pt = b)
                         (equity_curve (tick strategy df e i))).
  { destruct (tick_idle strategy df e i Hflat (Hno i (or_introl eq_refl)))
      as [-> | [r ->]]; [auto|].
    unfold update_equity_curve.
    cbn [position balance trades results equity_curve].
    repeat split; auto.
    apply Forall_app. split; [exact Hcurve|].
    constructor; [|constructor]. cbn [Equity.equity]. now rewrite Hflat. }
  destruct Hnext as (N1 & N2 & N3 & N4 & N5).
  destruct (IH (fun j Hj => Hno j (or_intror Hj)) (tick strategy df e i)
               N1 N2 N5) as (I1 & I2 & I3 & I4 & I5).
  cbv zeta. rewrite I3, I4, N3, N4. auto.
Qed.

(** X8: when no processed row carries a buy signal, a run on a new engine
    trades nothing: the log stays empty, the balance is the initial balance,
    the curve has one point for each processed candle, each at the initial
    balance, and [calculate_results] then leaves every statistic at its
    initial zero, the maximum drawdown and the Sharpe ratio included. *)
Theorem X8_no_buy_signal_no_trade :
  forall (libs : Libs) (strategy : GoldenCrossStrategy) (df : SignalFrame)
         (b : Q),
    (forall i, In i (processed strategy df) ->
               should_buy strategy df i = false) ->
    let e := execute_backtest strategy df (init b) in
    trades e = [] /\
    balance e = b /\
    position e = None /\
    length (equity_curve e) = length (processed strategy df) /\
    Forall (fun pt => Equity.equity pt = b) (equity_curve e) /\
    calculate_results libs e = e /\
    results e = results (init b).
Proof.
  intros libs strategy df b Hno e.
  destruct (loop_idle strategy df b (processed strategy df) Hno (init b))
    as (I1 & I2 & I3 & I4 & I5); try reflexivity; [constructor|].
  destruct (loop_curve_growth strategy df (processed strategy df)
              (processed_in_range strategy df) (init b)) as [L1 L2].
  assert (He : e = fold_left (tick strategy df) (processed strategy df)
                             (init b)).
  { unfold e, execute_backtest, close_last_position, has_position.
    now rewrite I1. }
  rewrite He. rewrite I3 in L2. cbn [init trades equity_curve length] in L1, L2.
  change (sell_records []) with 0%nat in L2.
  repeat split; auto.
  - lia.
  - unfold calculate_results. now rewrite I3.
Qed.

Lemma X8_no_buy_signal_no_trade_witness :
  let df := generate_signals (map warmup_row (seq 0 32)) in
  let e := execute_backtest config_strategy df (init 10000) in
  trades e = [] /\
  balance e = 10000 /\
  position e = None /\
  length (equity_curve e) = length (processed config_strategy df) /\
  Forall (fun pt => Equity.equity pt = 10000) (equity_curve e) /\
  calculate_results sample_libs e = e /\
  results e = results (init 10000).
Proof.
  apply (X8_no_buy_signal_no_trade sample_libs config_strategy
           (generate_signals (map warmup_row (seq 0 32)))
           10000).
  intros i Hi. vm_compute in Hi.
  repeat (destruct Hi as [<- | Hi]; [reflexivity|]). destruct Hi.
Defined.

(** * Further properties of the signal rules *)

(** ** Columns *)



Lemma nth_true_error (l : list bool) (i : nat) :
  nth i l false = true -> nth_error l i = Some true.
Proof.
  revert i. induction l as [|x l IH]; intros [|i] H; cbn in *;
    try discriminate; [now subst|now apply IH].
Qed.

Lemma nth_series_and (a b : list bool) (i : nat) :
  nth i (series_and a b) false = true ->
  nth i a false = true /\ nth i b false = true.
Proof.
  intros H. apply nth_true_error in H. unfold series_and in H.
  rewrite nth_error_map2 in H.
  destruct (nth_error a i) as [x|] eqn:Ha; [|discriminate].
  destruct (nth_error b i) as [y|] eqn:Hb; [|discriminate].
  injection H as H. apply andb_true_iff in H. destruct H as [-> ->].
  split; now apply nth_error_nth.
Qed.

Lemma nth_series_cmp (f : Q -> Q -> bool) (a b : list cell) (i : nat) :
  nth i (map2 (cmp f) a b) false = true ->
  exists x y,
    nth_error a i = Some (Some x) /\ nth_error b i = Some (Some y) /\
    f x y = true.
Proof.
  intros H. apply nth_true_error in H. rewrite nth_error_map2 in H.
  destruct (nth_error a i) as [[x|]|]; try discriminate;
    destruct (nth_error b i) as [[y|]|]; try discriminate.
  injection H as H. now exists x, y.
Qed.

Lemma nth_error_removelast_some {A : Type} (s : list A) :
  forall i c, nth_error (removelast s) i = Some c -> nth_error s i = Some c.
Proof.
  induction s as [|a s IH]; intros i c H; [now destruct i|].
  destruct s as [|b s]; [now destruct i|].
  change (removelast (a :: b :: s)) with (a :: removelast (b :: s)) in H.
  destruct i as [|i]; [exact H|]. cbn [nth_error] in *. now apply IH.
Qed.

Lemma nth_error_shift_some (s : list cell) (i : nat) (c : cell) :
  nth_error (shift s) i = Some c ->
  (i = O /\ c = None) \/ exists j, i = S j /\ nth_error s j = Some c.
Proof.
  destruct s as [|a s]; [now destruct i|].
  unfold shift. destruct i as [|j]; cbn [nth_error].
  - intros [= <-]. now left.
  - intros H. right. exists j. split; [reflexivity|].
    now apply nth_error_removelast_some.
Qed.


(** ** Crosses *)

Lemma golden_cross_cells (df : list Row) (i : nat) :
  nth i (golden_cross (generate_signals df)) false = true ->
  exists r s l,
    nth_error df i = Some r /\ MA_short r = Some s /\ MA_long r = Some l /\
    l < s /\
    exists j p sp lp,
      i = S j /\ nth_error df j = Some p /\
      MA_short p = Some sp /\ MA_long p = Some lp /\ sp <= lp.
Proof.
  cbn [generate_signals golden_cross]. intros H.
  apply nth_series_and in H. destruct H as [Hnow Hprev].
  apply nth_series_cmp in Hnow. destruct Hnow as (s & l & Hs & Hl & Hgt).
  apply nth_series_cmp in Hprev. destruct Hprev as (sp & lp & Hsp & Hlp & Hle).
  unfold col in Hs, Hl. rewrite nth_error_map in Hs, Hl.
  destruct (nth_error df i) as [r|] eqn:Hr; [|discriminate].
  cbn in Hs, Hl. injection Hs as Hs. injection Hl as Hl.
  exists r, s, l. repeat split; auto. { now apply Qgtb_gt. }
  apply nth_error_shift_some in Hsp.
  apply nth_error_shift_some in Hlp.
  destruct Hsp as [[_ Hsp] | (j & -> & Hsp)]; [discriminate|].
  destruct Hlp as [[Hj _] | (j' & Hj & Hlp)]; [discriminate|].
  injection Hj as <-.
  unfold col in Hsp, Hlp. rewrite nth_error_map in Hsp, Hlp.
  destruct (nth_error df j) as [p|] eqn:Hp; [|discriminate].
  cbn in Hsp, Hlp. injection Hsp as Hsp. injection Hlp as Hlp.
  exists j, p, sp, lp. repeat split; auto. now apply Qleb_le.
Qed.

Lemma dead_cross_cells (df : list Row) (i : nat) :
  nth i (dead_cross (generate_signals df)) false = true ->
  exists r s l,
    nth_error df i = Some r /\ MA_short r = Some s /\ MA_long r = Some l /\
    s < l /\
    exists j p sp lp,
      i = S j /\ nth_error df j = Some p /\
      MA_short p = Some sp /\ MA_long p = Some lp /\ lp <= sp.
Proof.
  cbn [generate_signals dead_cross]. intros H.
  apply nth_series_and in H. destruct H as [Hnow Hprev].
  apply nth_series_cmp in Hnow. destruct Hnow as (s & l & Hs & Hl & Hlt).
  apply nth_series_cmp in Hprev. destruct Hprev as (sp & lp & Hsp & Hlp & Hge).
  unfold col in Hs, Hl. rewrite nth_error_map in Hs, Hl.
  destruct (nth_error df i) as [r|] eqn:Hr; [|discriminate].
  cbn in Hs, Hl. injection Hs as Hs. injection Hl as Hl.
  exists r, s, l. repeat split; auto. { now apply Qltb_lt. }
  apply nth_error_shift_some in Hsp.
  apply nth_error_shift_some in Hlp.
  destruct Hsp as [[_ Hsp] | (j & -> & Hsp)]; [discriminate|].
  destruct Hlp as [[Hj _] | (j' & Hj & Hlp)]; [discriminate|].
  injection Hj as <-.
  unfold col in Hsp, Hlp. rewrite nth_error_map in Hsp, Hlp.
  destruct (nth_error df j) as [p|] eqn:Hp; [|discriminate].
  cbn in Hsp, Hlp. injection Hsp as Hsp. injection Hlp as Hlp.
  exists j, p, sp, lp. repeat split; auto. now apply Qgeb_ge.
Qed.

Lemma buy_needs_golden_cross (df : list Row) (i : nat) :
  nth i (buy_signal (generate_signals df)) false = true ->
  nth i (golden_cross (generate_signals df)) false = true.
Proof.
  cbn [generate_signals buy_signal golden_cross]. intros H.
  do 4 (apply nth_series_and in H; destruct H as [H _]). exact H.
Qed.

Lemma sell_needs_dead_cross (df : list Row) (i : nat) :
  nth i (sell_signal (generate_signals df)) false = true ->
  nth i (dead_cross (generate_signals df)) false = true.
Proof.
  cbn [generate_signals sell_signal dead_cross]. intros H.
  do 4 (apply nth_series_and in H; destruct H as [H _]). exact H.
Qed.

Lemma crosses_exclusive (df : list Row) (i : nat) :
  let sf := generate_signals df in
  ~ (nth i (golden_cross sf) false = true /\
     nth i (dead_cross sf) false = true) /\
  ~ (nth i (buy_signal sf) false = true /\
     nth i (sell_signal sf) false = true).
Proof.
  intros sf.
  assert (Hcross : ~ (nth i (golden_cross sf) false = true /\
                      nth i (dead_cross sf) false = true)).
  { intros [Hg Hd].
    destruct (golden_cross_cells df i Hg) as (r & s & l & Hr & Hs & Hl & Hgt & _).
    destruct (dead_cross_cells df i Hd) as (r' & s' & l' & Hr' & Hs' & Hl' & Hlt & _).
    rewrite Hr in Hr'. injection Hr' as <-.
    rewrite Hs in Hs'. injection Hs' as <-.
    rewrite Hl in Hl'. injection Hl' as <-.
    apply (Qlt_irrefl s). now apply Qlt_trans with l. }
  split; [exact Hcross|].
  intros [Hb Hs]. apply Hcross. split.
  - now apply buy_needs_golden_cross.
  - now apply sell_needs_dead_cross.
Qed.

(** X10: no row carries a golden cross and a dead cross together, and so
    no row carries a buy signal and a sell signal together. *)
Theorem X10_buy_and_sell_exclude_each_other :
  forall (df : list Row) (i : nat),
    let sf := generate_signals df in
    ~ (nth i (golden_cross sf) false = true /\
       nth i (dead_cross sf) false = true) /\
    ~ (nth i (buy_signal sf) false = true /\
       nth i (sell_signal sf) false = true).
Proof.
  intros df i. exact (crosses_exclusive df i).
Qed.

(** X11: a buy or sell signal needs both moving averages on the row and
    on the row before it.  The first row of a frame never carries one, and
    neither does a row on which, or right before which, an average is
    NaN. *)
Theorem X11_no_signal_without_averages :
  forall (df : list Row) (i : nat),
    let sf := generate_signals df in
    nth i (buy_signal sf) false = true \/ nth i (sell_signal sf) false = true ->
    exists j r p s l sp lp,
      i = S j /\
      nth_error df i = Some r /\ nth_error df j = Some p /\
      MA_short r = Some s /\ MA_long r = Some l /\
      MA_short p = Some sp /\ MA_long p = Some lp.
Proof.
  intros df i sf [Hb | Hs].
  - apply buy_needs_golden_cross in Hb.
    destruct (golden_cross_cells df i Hb)
      as (r & s & l & Hr & Hs & Hl & _ & j & p & sp & lp & Hi & Hp & Hsp & Hlp & _).
    exists j, r, p, s, l, sp, lp. auto 10.
  - apply sell_needs_dead_cross in Hs.
    destruct (dead_cross_cells df i Hs)
      as (r & s & l & Hr & Hs' & Hl & _ & j & p & sp & lp & Hi & Hp & Hsp & Hlp & _).
    exists j, r, p, s, l, sp, lp. auto 10.
Qed.

Lemma X11_no_signal_without_averages_witness :
  exists j r p s l sp lp,
    30%nat = S j /\
    nth_error stop_loss_rows 30 = Some r /\ nth_error stop_loss_rows j = Some p /\
    MA_short r = Some s /\ MA_long r = Some l /\
    MA_short p = Some sp /\ MA_long p = Some lp.
Proof.
  apply (X11_no_signal_without_averages stop_loss_rows 30).
  left. reflexivity.
Defined.

(** ** The sell rule and the filters *)

Lemma Qltb_not_lt (a b : Q) : Qltb a b = false <-> b <= a.
Proof. unfold Qltb. apply (Qgtb_not_gt b a). Qed.

(** The cell of [sell_signal] on a row that has a row before it. *)
Lemma sell_signal_at (df : list Row) (i : nat) (p r : Row) :
  nth_error df i = Some p -> nth_error df (S i) = Some r ->
  nth (S i) (sell_signal (generate_signals df)) false
  = cmp Qltb (MA_short r) (MA_long r) && cmp Qgeb (MA_short p) (MA_long p)
    && negb (cmp Qltb (RSI r) (Some 30))
    && negb (cmp Qltb (Some (close (ohlcv r))) (BB_lower r))
    && (cmp Qltb (MACD r) (MACD_signal r)
        && cmp Qgeb (MACD p) (MACD_signal p))
    && cmp Qgtb (Some (volume (ohlcv r))) (Volume_MA r).
Proof.
  intros Hp Hr. apply nth_error_nth.
  cbn [generate_signals sell_signal].
  unfold series_and, series_not, series_gt, series_lt, series_ge,
    series_lt_const, col_close, col_volume.
  repeat rewrite nth_error_map2.
  repeat rewrite nth_error_map.
  repeat rewrite (shift_col_at _ df i p r Hp Hr).
  repeat rewrite (col_at _ df (S i) r Hr).
  repeat rewrite nth_error_map2.
  repeat rewrite (shift_col_at _ df i p r Hp Hr).
  repeat rewrite (col_at _ df (S i) r Hr).
  rewrite Hr. reflexivity.
Qed.

(** The cell of [force_sell] on any row. *)
Lemma force_sell_at (df : list Row) (i : nat) (r : Row) :
  nth_error df i = Some r ->
  nth i (force_sell (generate_signals df)) false
  = cmp Qgtb (RSI r) (Some 80)
    || cmp Qgtb (Some (close (ohlcv r)))
                (option_map (fun x => x * (102 # 100)) (BB_upper r)).
Proof.
  intros Hr. apply nth_error_nth.
  cbn [generate_signals force_sell].
  unfold series_or, series_gt, series_gt_const, series_mul_const, col_close,
    col.
  repeat rewrite nth_error_map2.
  repeat rewrite nth_error_map.
  rewrite Hr. reflexivity.
Qed.

(** X12: at an index whose row and whose previous row have the indicators
    defined, [sell_signal] is true exactly when the short average was at or
    above the long one on the previous row and is below it now, RSI is at
    least 30, the close is at least the lower band, MACD was at or above its
    signal line on the previous row and is below it now, and the volume is
    above its average. *)
Theorem X12_sell_signal_iff_five_conditions :
  forall (df : list Row) (i : nat) (p r : Row)
         (s_prev l_prev m_prev g_prev s l rsi lower m g v_ma : Q),
    nth_error df i = Some p ->
    nth_error df (S i) = Some r ->
    MA_short p = Some s_prev -> MA_long p = Some l_prev ->
    MACD p = Some m_prev -> MACD_signal p = Some g_prev ->
    MA_short r = Some s -> MA_long r = Some l ->
    RSI r = Some rsi -> BB_lower r = Some lower ->
    MACD r = Some m -> MACD_signal r = Some g ->
    Volume_MA r = Some v_ma ->
    nth (S i) (sell_signal (generate_signals df)) false = true <->
    (l_prev <= s_prev /\ s < l) /\
    30 <= rsi /\
    lower <= close (ohlcv r) /\
    (g_prev <= m_prev /\ m < g) /\
    volume (ohlcv r) > v_ma.
Proof.
  intros df i p r s_prev l_prev m_prev g_prev s l rsi lower m g v_ma
         Hp Hr Hsp Hlp Hmp Hgp Hs Hl Hrsi Hlow Hm Hg Hv.
  rewrite (sell_signal_at df i p r Hp Hr).
  rewrite Hsp, Hlp, Hmp, Hgp, Hs, Hl, Hrsi, Hlow, Hm, Hg, Hv. cbn [cmp].
  repeat rewrite andb_true_iff. repeat rewrite negb_true_iff.
  rewrite !Qltb_lt, !Qgeb_ge, !Qltb_not_lt, Qgtb_gt.
  tauto.
Qed.

Lemma X12_sell_signal_iff_five_conditions_witness :
  nth 31 (sell_signal
            (generate_signals
               (entry_rows ++ [quiet_row 31 100 99 100 (-1) 0])))
      false = true <->
  (100 <= 101 /\ 99 < 100) /\
  30 <= 50 /\
  50 <= 100 /\
  (0 <= 1 /\ -1 < 0) /\
  10 > 5.
Proof.
  apply (X12_sell_signal_iff_five_conditions
           (entry_rows ++ [quiet_row 31 100 99 100 (-1) 0]) 30
           (quiet_row 30 100 101 100 1 0) (quiet_row 31 100 99 100 (-1) 0));
    reflexivity.
Defined.

(** X13: an undefined RSI or upper band does not hold a buy back.  On a
    row whose RSI and upper band are NaN while the averages, the MACD lines
    and the volume average are defined on it and on the row before,
    [buy_signal] is true exactly when the golden cross, the MACD cross and
    the volume condition hold. *)
Theorem X13_nan_filters_let_a_buy_through :
  forall (df : list Row) (i : nat) (p r : Row)
         (s_prev l_prev m_prev g_prev s l m g v_ma : Q),
    nth_error df i = Some p ->
    nth_error df (S i) = Some r ->
    MA_short p = Some s_prev -> MA_long p = Some l_prev ->
    MACD p = Some m_prev -> MACD_signal p = Some g_prev ->
    MA_short r = Some s -> MA_long r = Some l ->
    RSI r = None -> BB_upper r = None ->
    MACD r = Some m -> MACD_signal r = Some g ->
    Volume_MA r = Some v_ma ->
    nth (S i) (buy_signal (generate_signals df)) false = true <->
    (s_prev <= l_prev /\ s > l) /\
    (m_prev <= g_prev /\ m > g) /\
    volume (ohlcv r) > v_ma.
Proof.
  intros df i p r s_prev l_prev m_prev g_prev s l m g v_ma
         Hp Hr Hsp Hlp Hmp Hgp Hs Hl Hrsi Hup Hm Hg Hv.
  rewrite (buy_signal_at df i p r Hp Hr).
  rewrite Hsp, Hlp, Hmp, Hgp, Hs, Hl, Hrsi, Hup, Hm, Hg, Hv. cbn [cmp negb].
  repeat rewrite andb_true_iff.
  rewrite !Qgtb_gt, !Qleb_le.
  tauto.
Qed.

Lemma X13_nan_filters_let_a_buy_through_witness :
  let r := sample_row 30 100 10 (Some 101) (Some 100) None None None
                      (Some 1) (Some 0) (Some 5) in
  nth 30 (buy_signal (generate_signals (firstn 30 entry_rows ++ [r]))) false
  = true <->
  (99 <= 100 /\ 101 > 100) /\
  (-1 <= 0 /\ 1 > 0) /\
  volume (ohlcv r) > 5.
Proof.
  intro r.
  apply (X13_nan_filters_let_a_buy_through (firstn 30 entry_rows ++ [r]) 29
           (quiet_row 29 100 99 100 (-1) 0) r);
    reflexivity.
Defined.

(** X14: on a row whose upper band, when defined, is not negative, the
    strategy never answers yes to both [should_buy] and [should_sell]. *)
Theorem X14_should_buy_excludes_should_sell :
  forall (strategy : GoldenCrossStrategy) (df : list Row) (i : nat),
    (forall r u, nth_error df i = Some r -> BB_upper r = Some u -> 0 <= u) ->
    should_buy strategy (generate_signals df) i = true ->
    should_sell strategy (generate_signals df) i = false.
Proof.
  intros strategy df i Hband. unfold should_buy, should_sell.
  destruct (i <? long_period strategy)%nat; [discriminate|].
  intros Hbuy.
  destruct (crosses_exclusive df i) as [_ Hex].
  assert (Hsell : nth i (sell_signal (generate_signals df)) false = false).
  { apply not_true_iff_false. intro Hs. apply Hex. now split. }
  rewrite Hsell. cbn [orb].
  pose proof (buy_needs_golden_cross df i Hbuy) as Hg.
  destruct (golden_cross_cells df i Hg)
    as (r & _ & _ & Hr & _ & _ & _ & j & p & _ & _ & -> & Hp & _).
  rewrite (force_sell_at df (S j) r Hr).
  rewrite (buy_signal_at df j p r Hp Hr) in Hbuy.
  repeat rewrite andb_true_iff in Hbuy.
  destruct Hbuy as [[[[_ Hrsi] Hbb] _] _].
  apply negb_true_iff in Hrsi, Hbb.
  apply orb_false_iff. split.
  - destruct (RSI r) as [x|]; [|reflexivity]. cbn [cmp] in *.
    apply Qgtb_not_gt in Hrsi. apply Qgtb_not_gt. lra.
  - destruct (BB_upper r) as [u|] eqn:Hu; [|reflexivity]. cbn [cmp option_map] in *.
    apply Qgtb_not_gt in Hbb. apply Qgtb_not_gt.
    pose proof (Hband r u Hr Hu). lra.
Qed.

Lemma X14_should_buy_excludes_should_sell_witness :
  should_sell config_strategy (generate_signals stop_loss_rows) 30 = false.
Proof.
  apply (X14_should_buy_excludes_should_sell config_strategy stop_loss_rows 30).
  - intros r u Hr Hu. injection Hr as <-. injection Hu as <-. discriminate.
  - reflexivity.
Defined.

(** * The position of the live strategy *)

Lemma long_levels (entry : Q) :
  Strategy.calculate_stop_loss_take_profit entry "long"
  = (stop_loss_price entry, take_profit_price entry).
Proof. reflexivity. Qed.

(** X15: for a positive entry price the two levels lie on either side of
    it: below and above for a long position, above and below for any other
    position type.  So [check_stop_loss_take_profit] at the entry price,
    right after [update_position], finds no exit, for a long and for a short
    position. *)
Theorem X15_levels_bracket_the_entry :
  forall (s : Strategy.t) (entry : Q) (position_type : string),
    0 < entry ->
    let levels := Strategy.calculate_stop_loss_take_profit entry position_type in
    (position_type = "long"%string -> fst levels < entry /\ entry < snd levels) /\
    (position_type <> "long"%string -> snd levels < entry /\ entry < fst levels) /\
    Strategy.check_stop_loss_take_profit
      (Strategy.update_position s "long" entry) entry = Returned None /\
    Strategy.check_stop_loss_take_profit
      (Strategy.update_position s "short" entry) entry = Returned None.
Proof.
  intros s entry position_type Hentry levels.
  assert (Hlong : entry * (1 - Config.STOP_LOSS_PERCENT / 100) < entry /\
                  entry < entry * (1 + Config.TAKE_PROFIT_PERCENT / 100)).
  { unfold Config.STOP_LOSS_PERCENT, Config.TAKE_PROFIT_PERCENT.
    setoid_replace (1 - 2 / 100) with (98 # 100) by reflexivity.
    setoid_replace (1 + 5 / 100) with (105 # 100) by reflexivity.
    split; lra. }
  assert (Hshort : entry * (1 - Config.TAKE_PROFIT_PERCENT / 100) < entry /\
                   entry < entry * (1 + Config.STOP_LOSS_PERCENT / 100)).
  { unfold Config.STOP_LOSS_PERCENT, Config.TAKE_PROFIT_PERCENT.
    setoid_replace (1 - 5 / 100) with (95 # 100) by reflexivity.
    setoid_replace (1 + 2 / 100) with (102 # 100) by reflexivity.
    split; lra. }
  split; [|split; [|split]].
  - intros ->. exact Hlong.
  - intros Hne. unfold levels, Strategy.calculate_stop_loss_take_profit.
    apply String.eqb_neq in Hne. rewrite Hne. exact Hshort.
  - unfold Strategy.check_stop_loss_take_profit, Strategy.update_position,
      Strategy.compare_levels.
    cbn [Strategy.position Strategy.stop_loss_price Strategy.take_profit_price
         String.eqb Ascii.eqb Bool.eqb
         Strategy.calculate_stop_loss_take_profit fst snd].
    destruct Hlong as [H1 H2].
    assert (E1 : Qleb entry (entry * (1 - Config.STOP_LOSS_PERCENT / 100)) = false).
    { apply not_true_iff_false. intro H. apply Qleb_le in H. lra. }
    assert (E2 : Qgeb entry (entry * (1 + Config.TAKE_PROFIT_PERCENT / 100)) = false).
    { apply not_true_iff_false. intro H. apply Qgeb_ge in H. lra. }
    now rewrite E1, E2.
  - unfold Strategy.check_stop_loss_take_profit, Strategy.update_position,
      Strategy.compare_levels.
    cbn [Strategy.position Strategy.stop_loss_price Strategy.take_profit_price
         String.eqb Ascii.eqb Bool.eqb
         Strategy.calculate_stop_loss_take_profit fst snd].
    destruct Hshort as [H1 H2].
    assert (E1 : Qgeb entry (entry * (1 + Config.STOP_LOSS_PERCENT / 100)) = false).
    { apply not_true_iff_false. intro H. apply Qgeb_ge in H. lra. }
    assert (E2 : Qleb entry (entry * (1 - Config.TAKE_PROFIT_PERCENT / 100)) = false).
    { apply not_true_iff_false. intro H. apply Qleb_le in H. lra. }
    now rewrite E1, E2.
Qed.

Lemma X15_levels_bracket_the_entry_witness :
  let levels := Strategy.calculate_stop_loss_take_profit 100 "long" in
  ("long"%string = "long"%string -> fst levels < 100 /\ 100 < snd levels) /\
  ("long"%string <> "long"%string -> snd levels < 100 /\ 100 < fst levels) /\
  Strategy.check_stop_loss_take_profit
    (Strategy.update_position Strategy.empty "long" 100) 100 = Returned None /\
  Strategy.check_stop_loss_take_profit
    (Strategy.update_position Strategy.empty "short" 100) 100 = Returned None.
Proof.
  apply (X15_levels_bracket_the_entry Strategy.empty 100 "long"). reflexivity.
Defined.

(** X16: the live strategy and the backtest take the same exits.  For a
    long position entered at the same price, [check_stop_loss_take_profit]
    names a reason exactly when [check_exit_conditions] sells: it answers
    stop loss when the price is at or below the stop-loss price, and take
    profit when the price is above the stop-loss price and at or above the
    take-profit price. *)
Theorem X16_live_and_backtest_exits_agree :
  forall (s : Strategy.t) (e : Engine) (price : Q) (t : Z),
    position e = Some long ->
    exists answer,
      Strategy.check_stop_loss_take_profit
        (Strategy.update_position s "long" (entry_price e)) price
      = Returned answer /\
      (answer = None <-> fst (check_exit_conditions e price t) = false) /\
      (answer = Some Strategy.stop_loss
       <-> price <= stop_loss_price (entry_price e)) /\
      (answer = Some Strategy.take_profit
       <-> stop_loss_price (entry_price e) < price /\
           take_profit_price (entry_price e) <= price).
Proof.
  intros s e price t Hpos.
  unfold Strategy.check_stop_loss_take_profit, Strategy.update_position,
    Strategy.compare_levels, check_exit_conditions.
  rewrite Hpos.
  cbn [Strategy.position Strategy.stop_loss_price Strategy.take_profit_price
       String.eqb Ascii.eqb Bool.eqb].
  rewrite long_levels. cbn [fst snd].
  destruct (Qleb price (stop_loss_price (entry_price e))) eqn:Hsl.
  - apply Qleb_le in Hsl. exists (Some Strategy.stop_loss). cbn [orb fst].
    split; [reflexivity|]. repeat split; try discriminate; auto.
    intros [H _]. lra.
  - assert (Hsl' : stop_loss_price (entry_price e) < price).
    { apply Qnot_le_lt. intro H. apply Qleb_le in H. congruence. }
    destruct (Qgeb price (take_profit_price (entry_price e))) eqn:Htp.
    + apply Qgeb_ge in Htp. exists (Some Strategy.take_profit). cbn [orb fst].
      split; [reflexivity|]. repeat split; try discriminate; auto.
      intros H. lra.
    + exists None. cbn [orb fst].
      split; [reflexivity|]. repeat split; try discriminate; auto.
      * intros H. lra.
      * intros [_ H]. apply Qgeb_ge in H. congruence.
Qed.

Lemma X16_live_and_backtest_exits_agree_witness :
  let e := execute_buy (init 10000) 100 1 in
  exists answer,
    Strategy.check_stop_loss_take_profit
      (Strategy.update_position Strategy.empty "long" (entry_price e)) 97
    = Returned answer /\
    (answer = None <-> fst (check_exit_conditions e 97 2) = false) /\
    (answer = Some Strategy.stop_loss
     <-> 97 <= stop_loss_price (entry_price e)) /\
    (answer = Some Strategy.take_profit
     <-> stop_loss_price (entry_price e) < 97 /\
         take_profit_price (entry_price e) <= 97).
Proof.
  apply (X16_live_and_backtest_exits_agree Strategy.empty
           (execute_buy (init 10000) 100 1) 97 2).
  reflexivity.
Defined.

(** * The exchange client *)

(** X17: [calculate_order_amount] answers an amount exactly when the price
    it was given is a number other than 0, and the amount is then worth, at
    that price, the USDT amount less the fee of one thousandth; otherwise it
    answers [None]. *)
Theorem X17_order_amount_is_worth_the_budget_less_fee :
  forall (current_price : option Q) (usdt_amount : Q),
    match calculate_order_amount current_price usdt_amount with
    | Some amount =>
        exists p, current_price = Some p /\ ~ p == 0 /\
                  amount * p == usdt_amount * (999 # 1000)
    | None =>
        current_price = None \/ exists p, current_price = Some p /\ p == 0
    end.
Proof.
  intros [p|] usdt_amount; unfold calculate_order_amount, nonzero;
    [|now left].
  destruct (Qeq_bool p 0) eqn:Hp.
  - right. exists p. split; [reflexivity|]. now apply Qeq_bool_iff.
  - apply Qeq_bool_neq in Hp. exists p. split; [reflexivity|].
    split; [exact Hp|]. field. exact Hp.
Qed.

(** * The live engine *)

Lemma consistent_cases (e : Live.TradingEngine) :
  Live.consistent e ->
  (Strategy.holds (Live.strategy e) = false /\
   Strategy.position (Live.strategy e) = None /\
   Strategy.entry_price (Live.strategy e) = None /\
   Live.total_trades (Live.trade_stats e)
   = (Live.winning_trades (Live.trade_stats e)
      + Live.losing_trades (Live.trade_stats e))%Z) \/
  (Strategy.holds (Live.strategy e) = true /\
   exists entry,
     Live.strategy e = Strategy.update_position Strategy.empty "long" entry /\
     Live.total_trades (Live.trade_stats e)
     = (Live.winning_trades (Live.trade_stats e)
        + Live.losing_trades (Live.trade_stats e) + 1)%Z).
Proof.
  intros [[(Hp & He & Ht) | [[entry Hs] Ht]] _].
  - left. unfold Strategy.holds. rewrite Hp. auto.
  - right. rewrite Hs. split; [reflexivity|]. now exists entry.
Qed.

Lemma consistent_init : Live.consistent Live.init.
Proof.
  unfold Live.consistent. cbn. split; [left; auto|]. repeat split; lia.
Qed.

Lemma consistent_buy (ex : Exchange) (e : Live.TradingEngine) (p : Q) :
  Live.consistent e -> Live.consistent (Live.execute_buy_trade ex e p).
Proof.
  intros Hc. unfold Live.execute_buy_trade.
  destruct (Strategy.holds (Live.strategy e)) eqn:Hholds; [exact Hc|].
  destruct (fetch_balance ex) as [[|kv balance]|]; try exact Hc.
  destruct (free_of "USDT" (kv :: balance)); [|exact Hc].
  destruct (Qltb _ _); [exact Hc|].
  destruct (nonzero _); [|exact Hc].
  destruct (buy_order_filled ex); [|exact Hc].
  destruct (consistent_cases e Hc) as [(_ & _ & _ & Ht) | (Hh & _)];
    [|congruence].
  destruct Hc as (_ & Hw & Hl & Hdd & Hcd).
  unfold Live.consistent. cbn.
  split; [right; split; [now exists p|lia]|]. auto.
Qed.

Lemma consistent_sell (ex : Exchange) (e : Live.TradingEngine) (p : Q) :
  Live.consistent e -> Live.consistent (Live.execute_sell_trade ex e p).
Proof.
  intros Hc. unfold Live.execute_sell_trade.
  destruct (Strategy.holds (Live.strategy e)) eqn:Hholds; [|exact Hc].
  cbn [negb].
  destruct (fetch_balance ex) as [[|kv balance]|]; try exact Hc.
  destruct (free_of "BTC" (kv :: balance)); [|exact Hc].
  destruct (Qleb _ 0); [exact Hc|].
  destruct (sell_order_filled ex); [|exact Hc].
  destruct (Strategy.entry_price (Live.strategy e)); [|exact Hc].
  destruct (consistent_cases e Hc) as [(Hh & _) | (_ & entry & _ & Ht)];
    [congruence|].
  destruct Hc as (_ & Hw & Hl & Hdd & Hcd).
  unfold Live.consistent. cbn.
  destruct (Qgtb _ 0); (split; [left; repeat split; lia|]);
    repeat split; auto; lia.
Qed.

Lemma check_never_raises (e : Live.TradingEngine) (price : Q) :
  Live.consistent e ->
  exists answer,
    Strategy.check_stop_loss_take_profit (Live.strategy e) price
    = Returned answer.
Proof.
  intros Hc.
  destruct (consistent_cases e Hc) as [(_ & Hp & _) | (_ & entry & Hs & _)].
  - exists None. unfold Strategy.check_stop_loss_take_profit. now rewrite Hp.
  - rewrite Hs.
    unfold Strategy.check_stop_loss_take_profit, Strategy.update_position,
      Strategy.compare_levels.
    cbn [Strategy.position Strategy.stop_loss_price Strategy.take_profit_price
         String.eqb Ascii.eqb Bool.eqb].
    destruct (Qleb price _); [eauto|]. destruct (Qgeb price _); eauto.
Qed.

Lemma consistent_perform (e : Live.TradingEngine) (c : Live.call) :
  Live.consistent e -> Live.consistent (Live.perform e c).
Proof.
  intros Hc. destruct c as [libs ex | ex | ex p | ex p | ex |]; cbn [Live.perform].
  - unfold Live.check_trading_signals.
    destruct (fetch_ohlcv ex) as [data|]; [|exact Hc].
    destruct (length data <? Config.LONG_MA_PERIOD)%nat; [exact Hc|].
    cbv zeta. destruct (nth_error _ _) as [r|]; [|exact Hc].
    destruct (if Strategy.holds (Live.strategy e) then _ else _)
      as [[reason|]|]; [| |exact Hc].
    + now apply consistent_sell.
    + destruct (should_buy _ _ _); [now apply consistent_buy|].
      destruct (should_sell _ _ _); [now apply consistent_sell|exact Hc].
  - unfold Live.check_position_status, Live.check_position_status_body.
    destruct (negb _); [exact Hc|].
    destruct (nonzero _) as [price|]; [|exact Hc].
    destruct (Strategy.check_stop_loss_take_profit _ _) as [[reason|]|];
      [| |exact Hc].
    + assert (H1 : Live.consistent (Live.execute_exit_trade ex e reason price))
        by now apply consistent_sell.
      now destruct (Strategy.entry_price _).
    + now destruct (Strategy.entry_price _).
  - now apply consistent_buy.
  - now apply consistent_sell.
  - unfold Live.emergency_stop.
    assert (H1 : Live.consistent
                   (if Strategy.holds (Live.strategy e)
                    then match nonzero (ticker_last ex) with
                         | Some current_price =>
                             Live.execute_sell_trade ex e current_price
                         | None => e
                         end
                    else e)).
    { destruct (Strategy.holds _); [|exact Hc].
      destruct (nonzero _); [now apply consistent_sell|exact Hc]. }
    exact H1.
  - exact Hc.
Qed.

Lemma consistent_after (calls : list Live.call) :
  Live.consistent (Live.after calls).
Proof.
  unfold Live.after. apply fold_left_invariant.
  - intros a b. apply consistent_perform.
  - exact consistent_init.
Qed.

(** X18: whatever calls a new engine receives and whatever the exchange
    answers, the position of its strategy is none or long, every counted
    trade is won, lost or the one still open, so that the win rate reported
    by [get_trading_stats] lies between 0 and 100, and the two drawdown
    entries of [trade_stats] are still 0. *)
Theorem X18_live_engine_stays_consistent :
  forall calls : list Live.call,
    let e := Live.after calls in
    let stats := Live.trade_stats e in
    (Strategy.position (Live.strategy e) = None \/
     Strategy.position (Live.strategy e) = Some "long"%string) /\
    (Live.total_trades stats
     = Live.winning_trades stats + Live.losing_trades stats
       + (if Strategy.holds (Live.strategy e) then 1 else 0))%Z /\
    (0 <= Live.winning_trades stats)%Z /\
    (0 <= Live.losing_trades stats)%Z /\
    (0 <= Live.win_rate e /\ Live.win_rate e <= 100) /\
    Live.max_drawdown stats = 0 /\
    Live.current_drawdown stats = 0.
Proof.
  intros calls e stats.
  pose proof (consistent_after calls) as Hc. fold e in Hc.
  pose proof (consistent_cases e Hc) as Hcases.
  destruct Hc as (_ & Hw & Hl & Hdd & Hcd). fold stats in Hw, Hl, Hdd, Hcd.
  assert (Hrate : forall t,
             (Live.winning_trades stats <= t)%Z ->
             Live.total_trades stats = t ->
             0 <= Live.win_rate e /\ Live.win_rate e <= 100).
  { intros t Hle Ht. unfold Live.win_rate. fold stats.
    destruct (0 <? Live.total_trades stats)%Z eqn:Hpos.
    - apply Z.ltb_lt in Hpos. apply ratio_percent_range; lia.
    - split; lra. }
  destruct Hcases as [(Hh & Hp & _ & Ht) | (Hh & entry & Hs & Ht)];
    fold stats in Ht; rewrite Hh.
  - destruct (Hrate (Live.total_trades stats)) as [R1 R2];
      [lia|reflexivity|].
    split; [now left|]. split; [lia|]. auto 10.
  - destruct (Hrate (Live.total_trades stats)) as [R1 R2];
      [lia|reflexivity|].
    split; [right; now rewrite Hs|]. split; [lia|]. auto 10.
Qed.

Lemma consistent_entry (e : Live.TradingEngine) :
  Live.consistent e ->
  (Strategy.entry_price (Live.strategy e) = None
   <-> Strategy.holds (Live.strategy e) = false).
Proof.
  intros Hc.
  destruct (consistent_cases e Hc) as [(Hh & _ & He & _) | (Hh & entry & Hs & _)].
  - rewrite Hh, He. tauto.
  - rewrite Hh, Hs. cbn. split; discriminate.
Qed.

(** X19: on an engine that holds a position, the body of
    [check_position_status] ends by an exception exactly when it has closed
    the position: after a stop-loss or take-profit exit that went through,
    the lines that log the open profit read an entry price that is gone. *)
Theorem X19_status_check_fails_after_its_own_exit :
  forall (calls : list Live.call) (ex : Exchange),
    let e := Live.after calls in
    Strategy.holds (Live.strategy e) = true ->
    let done := Live.check_position_status_body ex e in
    snd done <> None <-> Strategy.holds (Live.strategy (fst done)) = false.
Proof.
  intros calls ex e Hholds done.
  pose proof (consistent_after calls) as Hc. fold e in Hc.
  unfold done, Live.check_position_status_body. rewrite Hholds. cbn [negb].
  destruct (nonzero (ticker_last ex)) as [price|]; cbn [fst snd].
  2: { rewrite Hholds. split; [congruence|discriminate]. }
  destruct (check_never_raises e price Hc) as [answer ->].
  set (e1 := match answer with
             | Some reason => Live.execute_exit_trade ex e reason price
             | None => e
             end).
  assert (Hc1 : Live.consistent e1).
  { unfold e1. destruct answer; [now apply consistent_sell|exact Hc]. }
  pose proof (consistent_entry e1 Hc1) as Hentry.
  destruct (Strategy.entry_price (Live.strategy e1)) eqn:He; cbn [fst snd].
  - split; [congruence|]. intros H. apply Hentry in H. discriminate.
  - split; [|discriminate]. intros _. now apply Hentry.
Qed.

Lemma X19_status_check_fails_after_its_own_exit_witness :
  let e := Live.after [Live.ExecuteBuyTrade sample_exchange 100] in
  let done := Live.check_position_status_body sample_exchange e in
  snd done <> None <-> Strategy.holds (Live.strategy (fst done)) = false.
Proof.
  apply (X19_status_check_fails_after_its_own_exit
           [Live.ExecuteBuyTrade sample_exchange 100] sample_exchange).
  reflexivity.
Defined.

(** * The monitor *)

(** ** Consecutive losses *)

Lemma count_losses_from_split (r : list Trade.t) :
  exists streak rest,
    r = streak ++ rest /\
    length streak = Monitor.count_losses_from r /\
    Forall (fun t => Monitor.profit_of t < 0) streak /\
    (rest = [] \/
     exists t rest', rest = t :: rest' /\ ~ Monitor.profit_of t < 0).
Proof.
  induction r as [|t r IH].
  - exists [], []. cbn. auto.
  - cbn [Monitor.count_losses_from].
    change (match Trade.profit t with Some p => p | None => 0 end)
      with (Monitor.profit_of t).
    destruct (Qltb (Monitor.profit_of t) 0) eqn:Hlt.
    + destruct IH as (streak & rest & Hr & Hlen & Hall & Hrest).
      exists (t :: streak), rest.
      split; [cbn; now rewrite <- Hr|].
      split; [cbn; now rewrite Hlen|].
      split; [|exact Hrest].
      constructor; [now apply Qltb_lt|exact Hall].
    + exists [], (t :: r). cbn. repeat split; auto.
      right. exists t, r. split; [reflexivity|].
      intro H. apply Qltb_lt in H. congruence.
Qed.

(** X20: [count_consecutive_losses] counts the run of trades with a
    negative profit that ends the list: the list is some trades followed by
    that many losing trades, and the trade right before them, if there is
    one, is not a loss.  A trade with a profit of 0 or without a profit ends
    the run, so one more trade sets the count to one more after a loss and
    to 0 after anything else. *)
Theorem X20_consecutive_losses_is_the_final_run :
  forall trades : list Trade.t,
    let n := Monitor.count_consecutive_losses trades in
    (n <= length trades)%nat /\
    (exists before streak,
        trades = before ++ streak /\
        length streak = n /\
        Forall (fun t => Monitor.profit_of t < 0) streak /\
        (before = [] \/
         exists b t, before = b ++ [t] /\ ~ Monitor.profit_of t < 0)) /\
    (forall t,
        Monitor.count_consecutive_losses (trades ++ [t])
        = if Qltb (Monitor.profit_of t) 0 then S n else O).
Proof.
  intros trades n.
  destruct (count_losses_from_split (rev trades))
    as (streak & rest & Hr & Hlen & Hall & Hrest).
  assert (Htrades : trades = rev rest ++ rev streak).
  { rewrite <- rev_app_distr, <- Hr. symmetry. apply rev_involutive. }
  split; [|split].
  - unfold n, Monitor.count_consecutive_losses. rewrite <- Hlen.
    replace (length trades) with (length (rev rest ++ rev streak))
      by (now rewrite <- Htrades).
    rewrite length_app, !length_rev. lia.
  - exists (rev rest), (rev streak). split; [exact Htrades|].
    split; [rewrite length_rev; exact Hlen|].
    split; [apply Forall_rev; exact Hall|].
    destruct Hrest as [-> | (t & rest' & -> & Ht)]; [now left|].
    right. exists (rev rest'), t. split; [reflexivity|exact Ht].
  - intros t. unfold n, Monitor.count_consecutive_losses.
    rewrite rev_app_distr. reflexivity.
Qed.

(** ** Alerts that still carry a datetime *)

Lemma existing_alerts_dated (clock : Z) (alert_type : string)
    (l : list Monitor.Alert) :
  Forall Monitor.dated l ->
  Monitor.existing_alerts clock alert_type l
  = Returned (filter (fun a => String.eqb (Monitor.type a) alert_type
                               && Monitor.young 300 clock a) l).
Proof.
  induction 1 as [|a l [z Hz] _ IH]; [reflexivity|].
  cbn [Monitor.existing_alerts filter]. unfold Monitor.age, Monitor.young.
  rewrite Hz, IH.
  destruct (String.eqb (Monitor.type a) alert_type); cbn [andb]; [|reflexivity].
  now destruct (Monitor.seconds (clock - z) <? 300)%Z.
Qed.

Lemma recent_alerts_dated (clock : Z) (l : list Monitor.Alert) :
  Forall Monitor.dated l ->
  Monitor.recent_alerts clock l
  = Returned (filter (Monitor.young 3600 clock) l).
Proof.
  induction 1 as [|a l [z Hz] _ IH]; [reflexivity|].
  cbn [Monitor.recent_alerts filter]. unfold Monitor.age, Monitor.young.
  rewrite Hz, IH.
  now destruct (Monitor.seconds (clock - z) <? 3600)%Z.
Qed.

Lemma filter_nonempty_in {A : Type} (f : A -> bool) (l : list A) (x : A)
    (rest : list A) :
  filter f l = x :: rest -> In x l /\ f x = true.
Proof.
  intros H. apply filter_In. rewrite H. now left.
Qed.

(** X21: as long as the alerts carry datetimes, [add_alert] returns
    normally and leaves the list as it was or with the new alert at its end;
    afterwards the list holds an alert of that type less than 300 seconds
    old within the day, and a second alert of the same type at the same
    instant is dropped. *)
Theorem X21_add_alert_keeps_one_per_type :
  forall (clock : Z) (m : Monitor.t) (alert_type : string)
         (msg msg' : Monitor.message),
    Forall Monitor.dated (Monitor.alerts m) ->
    exists m',
      Monitor.add_alert clock m alert_type msg = Returned m' /\
      (Monitor.alerts m' = Monitor.alerts m \/
       Monitor.alerts m'
       = Monitor.alerts m
         ++ [{| Monitor.type := alert_type; Monitor.text := msg;
                Monitor.timestamp := Monitor.Datetime clock;
                Monitor.notified := false |}]) /\
      (exists a,
          In a (Monitor.alerts m') /\ Monitor.type a = alert_type /\
          Monitor.young 300 clock a = true) /\
      Monitor.add_alert clock m' alert_type msg' = Returned m'.
Proof.
  intros clock m alert_type msg msg' Hdated.
  set (new := {| Monitor.type := alert_type; Monitor.text := msg;
                 Monitor.timestamp := Monitor.Datetime clock;
                 Monitor.notified := false |}).
  assert (Hnew : String.eqb (Monitor.type new) alert_type
                 && Monitor.young 300 clock new = true).
  { cbn. rewrite String.eqb_refl. unfold Monitor.seconds.
    now rewrite Z.sub_diag. }
  unfold Monitor.add_alert at 1.
  rewrite (existing_alerts_dated clock alert_type _ Hdated).
  destruct (filter _ (Monitor.alerts m)) as [|a rest] eqn:Hex.
  - exists (Monitor.with_alerts m (Monitor.alerts m ++ [new])).
    split; [reflexivity|]. cbn [Monitor.alerts Monitor.with_alerts].
    split; [now right|]. split.
    + exists new. split; [apply in_or_app; right; now left|].
      apply andb_true_iff in Hnew. destruct Hnew as [_ Hy]. now split.
    + unfold Monitor.add_alert. cbn [Monitor.alerts Monitor.with_alerts].
      rewrite existing_alerts_dated.
      * rewrite filter_app, Hex. cbn [app filter]. now rewrite Hnew.
      * apply Forall_app. split; [exact Hdated|].
        constructor; [now exists clock|constructor].
  - exists m. split; [reflexivity|]. split; [now left|].
    destruct (filter_nonempty_in _ _ _ _ Hex) as [Hin Ha].
    apply andb_true_iff in Ha. destruct Ha as [Hty Hy].
    split.
    + exists a. split; [exact Hin|]. split; [|exact Hy].
      now apply String.eqb_eq.
    + unfold Monitor.add_alert.
      rewrite (existing_alerts_dated clock alert_type _ Hdated), Hex.
      reflexivity.
Qed.

Lemma X21_add_alert_keeps_one_per_type_witness :
  exists m',
    Monitor.add_alert 1000 Monitor.init "low_balance" (Monitor.LowBalance 50)
    = Returned m' /\
    (Monitor.alerts m' = Monitor.alerts Monitor.init \/
     Monitor.alerts m'
     = Monitor.alerts Monitor.init
       ++ [{| Monitor.type := "low_balance";
              Monitor.text := Monitor.LowBalance 50;
              Monitor.timestamp := Monitor.Datetime 1000;
              Monitor.notified := false |}]) /\
    (exists a,
        In a (Monitor.alerts m') /\ Monitor.type a = "low_balance"%string /\
        Monitor.young 300 1000 a = true) /\
    Monitor.add_alert 1000 m' "low_balance" (Monitor.LowBalance 40)
    = Returned m'.
Proof.
  apply (X21_add_alert_keeps_one_per_type 1000 Monitor.init "low_balance"
           (Monitor.LowBalance 50) (Monitor.LowBalance 40)).
  constructor.
Defined.

Lemma notified_not_active (clock : Z) (l : list Monitor.Alert) :
  Forall (fun a => Monitor.notified a = true /\
                   Monitor.young 3600 clock a = true) l ->
  filter (fun a => negb (Monitor.notified a)) l = [] /\
  map Monitor.mark_notified (filter (Monitor.young 3600 clock) l) = l.
Proof.
  induction 1 as [|a l [Hn Hy] _ [IH1 IH2]]; [split; reflexivity|].
  cbn [filter map]. rewrite Hn, Hy. cbn [negb map]. rewrite IH2.
  split; [exact IH1|]. f_equal.
  destruct a as [ty tx ts nt]. cbn in Hn. now subst nt.
Qed.

(** X22: as long as the alerts carry datetimes, [check_alerts] keeps, in
    their order, exactly the alerts less than 3600 seconds old within the
    day and marks each of them as notified, so that no alert is left active;
    a second call at the same instant changes nothing. *)
Theorem X22_check_alerts_notifies_what_it_keeps :
  forall (clock : Z) (m : Monitor.t),
    Forall Monitor.dated (Monitor.alerts m) ->
    let m' := Monitor.check_alerts clock m in
    Monitor.alerts m'
    = map Monitor.mark_notified
          (filter (Monitor.young 3600 clock) (Monitor.alerts m)) /\
    Forall (fun a => Monitor.notified a = true /\
                     Monitor.young 3600 clock a = true) (Monitor.alerts m') /\
    Monitor.active_alerts m' = O /\
    Monitor.check_alerts clock m' = m'.
Proof.
  intros clock m Hdated m'.
  assert (Hm' : m' = Monitor.with_alerts m
                       (map Monitor.mark_notified
                            (filter (Monitor.young 3600 clock)
                                    (Monitor.alerts m)))).
  { unfold m', Monitor.check_alerts.
    now rewrite (recent_alerts_dated clock _ Hdated). }
  assert (Hall : Forall (fun a => Monitor.notified a = true /\
                                  Monitor.young 3600 clock a = true)
                        (map Monitor.mark_notified
                             (filter (Monitor.young 3600 clock)
                                     (Monitor.alerts m)))).
  { apply Forall_map. apply Forall_forall. intros a Ha.
    apply filter_In in Ha. destruct Ha as [_ Ha]. split; [reflexivity|].
    exact Ha. }
  destruct (notified_not_active clock _ Hall) as [Hnone Hsame].
  rewrite Hm'. cbn [Monitor.alerts Monitor.with_alerts].
  split; [reflexivity|]. split; [exact Hall|]. split.
  - unfold Monitor.active_alerts. cbn [Monitor.alerts Monitor.with_alerts].
    now rewrite Hnone.
  - unfold Monitor.check_alerts. cbn [Monitor.alerts Monitor.with_alerts].
    rewrite recent_alerts_dated.
    + unfold Monitor.with_alerts. cbn. now rewrite Hsame.
    + apply Forall_map. apply Forall_forall. intros a Ha.
      apply filter_In in Ha. destruct Ha as [Ha _].
      rewrite Forall_forall in Hdated. exact (Hdated a Ha).
Qed.

Lemma X22_check_alerts_notifies_what_it_keeps_witness :
  let m := Monitor.with_alerts Monitor.init
             [{| Monitor.type := "low_balance";
                 Monitor.text := Monitor.LowBalance 50;
                 Monitor.timestamp := Monitor.Datetime 1000;
                 Monitor.notified := false |}] in
  let m' := Monitor.check_alerts 1300 m in
  Monitor.alerts m'
  = map Monitor.mark_notified
        (filter (Monitor.young 3600 1300) (Monitor.alerts m)) /\
  Forall (fun a => Monitor.notified a = true /\
                   Monitor.young 3600 1300 a = true) (Monitor.alerts m') /\
  Monitor.active_alerts m' = O /\
  Monitor.check_alerts 1300 m' = m'.
Proof.
  intro m.
  apply (X22_check_alerts_notifies_what_it_keeps 1300 m).
  constructor; [now exists 1000%Z|constructor].
Defined.

(** ** What the checks change *)

Lemma add_alert_returned (clock : Z) (m m' : Monitor.t) (alert_type : string)
    (msg : Monitor.message) :
  Monitor.add_alert clock m alert_type msg = Returned m' ->
  (exists extra, Monitor.alerts m' = Monitor.alerts m ++ extra) /\
  Monitor.api_errors m' = Monitor.api_errors m /\
  Monitor.consecutive_losses m' = Monitor.consecutive_losses m /\
  Monitor.performance_metrics m' = Monitor.performance_metrics m.
Proof.
  unfold Monitor.add_alert.
  destruct (Monitor.existing_alerts clock alert_type (Monitor.alerts m))
    as [[|a rest]|x]; [| |discriminate]; intros [= <-].
  - cbn. split; [eauto|auto].
  - split; [exists []; now rewrite app_nil_r|auto].
Qed.

(** A property of the monitor kept by every [add_alert] that returns is
    kept by a guarded call. *)
Lemma guarded_keeps (P : Monitor.t -> Prop) (current : Monitor.t)
    (step : outcome Monitor.t) (next : Monitor.t -> Monitor.t) :
  P current ->
  (forall m', step = Returned m' -> P (next m')) ->
  P (Monitor.guarded current step next).
Proof.
  intros Hcur Hnext. unfold Monitor.guarded.
  destruct step as [m'|x]; [now apply Hnext|exact Hcur].
Qed.

(** X23: on a live engine, whatever calls it has received,
    [update_performance_metrics] raises no alert: the list of recent trades
    it counts losses in is always empty and the drawdown it compares with
    its threshold is never written.  It stores the metrics, and sets the
    count of consecutive losses to 0 when the engine has a losing trade. *)
Theorem X23_metrics_update_raises_no_alert :
  forall (calls : list Live.call) (clock : Z) (m : Monitor.t),
    let e := Live.after calls in
    let m' := Monitor.update_performance_metrics clock e m in
    Monitor.alerts m' = Monitor.alerts m /\
    Monitor.api_errors m' = Monitor.api_errors m /\
    Monitor.consecutive_losses m'
    = (if (0 <? Live.losing_trades (Live.trade_stats e))%Z
       then 0%Z else Monitor.consecutive_losses m) /\
    exists metrics,
      Monitor.performance_metrics m' = Some metrics /\
      Monitor.max_drawdown metrics = 0 /\
      Monitor.win_rate metrics = Live.win_rate e /\
      Monitor.last_update metrics = Monitor.Datetime clock.
Proof.
  intros calls clock m e m'.
  destruct (consistent_after calls) as (_ & _ & _ & Hdd & _). fold e in Hdd.
  unfold m', Monitor.update_performance_metrics.
  rewrite Hdd.
  change (Qgtb 0 Monitor.threshold_max_drawdown) with false.
  change (Monitor.threshold_consecutive_losses
          <=? Z.of_nat (Monitor.count_consecutive_losses
                          (Monitor.get_recent_trades 10)))%Z with false.
  destruct (0 <? Live.losing_trades (Live.trade_stats e))%Z; cbn;
    repeat split; eauto.
Qed.

(** Goes through the guarded calls of [add_alert] of a method, for a goal
    on a field that [add_alert] leaves alone. *)
Ltac through_guards :=
  lazymatch goal with
  | |- ?f (Monitor.guarded ?c ?s ?n) = ?K =>
      apply (guarded_keeps (fun x => f x = K));
      [ cbn in *; congruence
      | let m' := fresh "m" in
        let H := fresh "H" in
        intros m' H; apply add_alert_returned in H;
        destruct H as (_ & ? & ? & ?); cbv beta; through_guards ]
  | _ => cbn in *; congruence
  end.

Lemma health_api_errors (clock : Z) (ex : Exchange) (e : Live.TradingEngine)
    (m : Monitor.t) :
  Monitor.api_errors (Monitor.check_system_health clock ex e m)
  = if Monitor.failed ex then (Monitor.api_errors m + 1)%Z else 0%Z.
Proof.
  unfold Monitor.check_system_health. cbv zeta.
  destruct (Monitor.failed ex); destruct (Qltb _ _);
    destruct (negb (Live.is_running e)); through_guards.
Qed.

Lemma update_api_errors (clock : Z) (e : Live.TradingEngine) (m : Monitor.t) :
  Monitor.api_errors (Monitor.update_performance_metrics clock e m)
  = Monitor.api_errors m.
Proof.
  unfold Monitor.update_performance_metrics. cbv zeta.
  destruct (0 <? _)%Z; [destruct (_ <=? _)%Z|]; destruct (Qgtb _ _);
    through_guards.
Qed.

Lemma perform_api_errors (m : Monitor.t) (c : Monitor.call) :
  Monitor.api_errors (Monitor.perform m c)
  = match c with
    | Monitor.CheckSystemHealth _ ex _ =>
        if Monitor.failed ex then (Monitor.api_errors m + 1)%Z else 0%Z
    | _ => Monitor.api_errors m
    end.
Proof.
  destruct c as [clock ex e | clock e | clock | dir_ok]; cbn [Monitor.perform].
  - apply health_api_errors.
  - apply update_api_errors.
  - unfold Monitor.check_alerts. now destruct (Monitor.recent_alerts _ _).
  - unfold Monitor.save_monitoring_data.
    destruct (negb dir_ok); [reflexivity|].
    now destruct (snd (Monitor.stringify (Monitor.alerts m))).
Qed.

(** X24: after any sequence of monitoring steps on a new monitor, the
    [api_errors] counter is the number of failed balance requests at the end
    of the sequence of health checks: a failed request adds one, a request
    that succeeds sets it back to 0, and no other step touches it. *)
Theorem X24_api_errors_counts_the_last_failures :
  forall calls : list Monitor.call,
    Monitor.api_errors (fold_left Monitor.perform calls Monitor.init)
    = Z.of_nat (Monitor.trailing_failures
                  (rev (Monitor.health_answers calls))).
Proof.
  induction calls as [|c calls IH] using rev_ind; [reflexivity|].
  rewrite fold_left_app. cbn [fold_left].
  rewrite perform_api_errors, IH.
  unfold Monitor.health_answers. rewrite flat_map_app, rev_app_distr.
  destruct c as [clock ex e | clock e | clock | dir_ok]; cbn [flat_map app rev];
    try reflexivity.
  cbn [Monitor.trailing_failures].
  destruct (Monitor.failed ex); [lia|reflexivity].
Qed.

(** ** Alerts after a save *)

Lemma extends_refl (l : list Monitor.Alert) : Monitor.extends l l.
Proof. exists []. now rewrite app_nil_r. Qed.

Lemma extends_trans (l1 l2 l3 : list Monitor.Alert) :
  Monitor.extends l1 l2 -> Monitor.extends l2 l3 -> Monitor.extends l1 l3.
Proof.
  intros [x ->] [y ->]. exists (x ++ y). now rewrite app_assoc.
Qed.

(** Goes through the guarded calls of [add_alert] of a method, for the
    growth of the list of alerts from [l]. *)
Ltac grow_guards l :=
  lazymatch goal with
  | |- Monitor.extends l (Monitor.alerts (Monitor.guarded ?c ?s ?n)) =>
      let Hc := fresh "Hc" in
      assert (Hc : Monitor.extends l (Monitor.alerts c))
        by (cbn; first [assumption | apply extends_refl]);
      apply (guarded_keeps (fun x => Monitor.extends l (Monitor.alerts x)));
      [ exact Hc
      | let m' := fresh "m" in
        let H := fresh "H" in
        intros m' H; apply add_alert_returned in H;
        destruct H as (H & _);
        apply (extends_trans _ _ _ Hc) in H;
        cbv beta; grow_guards l ]
  | _ => cbn; first [assumption | apply extends_refl]
  end.

Lemma health_extends (clock : Z) (ex : Exchange) (e : Live.TradingEngine)
    (m : Monitor.t) :
  Monitor.extends (Monitor.alerts m)
    (Monitor.alerts (Monitor.check_system_health clock ex e m)).
Proof.
  unfold Monitor.check_system_health. cbv zeta.
  destruct (Monitor.failed ex); destruct (Qltb _ _);
    destruct (negb (Live.is_running e)); grow_guards (Monitor.alerts m).
Qed.

Lemma update_extends (clock : Z) (e : Live.TradingEngine) (m : Monitor.t) :
  Monitor.extends (Monitor.alerts m)
    (Monitor.alerts (Monitor.update_performance_metrics clock e m)).
Proof.
  unfold Monitor.update_performance_metrics. cbv zeta.
  destruct (0 <? _)%Z; [destruct (_ <=? _)%Z|]; destruct (Qgtb _ _);
    grow_guards (Monitor.alerts m).
Qed.

Lemma stuck_check_alerts (clock : Z) (m : Monitor.t) :
  Monitor.stuck m -> Monitor.check_alerts clock m = m.
Proof.
  intros (a & rest & z & Hl & Hz). unfold Monitor.check_alerts.
  rewrite Hl. cbn [Monitor.recent_alerts]. unfold Monitor.age.
  now rewrite Hz.
Qed.

Lemma stuck_save (dir_ok : bool) (m : Monitor.t) :
  Monitor.stuck m ->
  fst (Monitor.save_monitoring_data dir_ok m) = m /\
  snd (Monitor.save_monitoring_data dir_ok m) = false.
Proof.
  intros (a & rest & z & Hl & Hz). unfold Monitor.save_monitoring_data.
  destruct (negb dir_ok); [split; reflexivity|].
  assert (Hs : Monitor.stringify (Monitor.alerts m) = (Monitor.alerts m, true)).
  { rewrite Hl. cbn [Monitor.stringify]. now rewrite Hz. }
  rewrite Hs. cbn [fst snd]. split; [|reflexivity].
  now destruct m.
Qed.

Lemma stuck_extends (m m' : Monitor.t) :
  Monitor.stuck m ->
  Monitor.extends (Monitor.alerts m) (Monitor.alerts m') ->
  Monitor.stuck m'.
Proof.
  intros (a & rest & z & Hl & Hz) [extra He].
  exists a, (rest ++ extra), z. rewrite He, Hl. auto.
Qed.

Lemma stuck_perform (m : Monitor.t) (c : Monitor.call) :
  Monitor.stuck m ->
  Monitor.extends (Monitor.alerts m) (Monitor.alerts (Monitor.perform m c)).
Proof.
  intros Hstuck.
  destruct c as [clock ex e | clock e | clock | dir_ok]; cbn [Monitor.perform].
  - apply health_extends.
  - apply update_extends.
  - rewrite (stuck_check_alerts clock m Hstuck). apply extends_refl.
  - destruct (stuck_save dir_ok m Hstuck) as [-> _]. apply extends_refl.
Qed.

Lemma stuck_run (calls : list Monitor.call) :
  forall m,
    Monitor.stuck m ->
    Monitor.stuck (fold_left Monitor.perform calls m) /\
    Monitor.extends (Monitor.alerts m)
      (Monitor.alerts (fold_left Monitor.perform calls m)).
Proof.
  induction calls as [|c calls IH]; intros m Hstuck.
  - split; [exact Hstuck|apply extends_refl].
  - cbn [fold_left].
    pose proof (stuck_perform m c Hstuck) as Hstep.
    destruct (IH (Monitor.perform m c) (stuck_extends _ _ Hstuck Hstep))
      as [I1 I2].
    split; [exact I1|]. now apply extends_trans with (2 := I2).
Qed.

Lemma stringify_dated (l : list Monitor.Alert) :
  Forall Monitor.dated l ->
  snd (Monitor.stringify l) = false /\
  length (fst (Monitor.stringify l)) = length l /\
  Forall (fun a => exists z, Monitor.timestamp a = Monitor.IsoString z)
         (fst (Monitor.stringify l)).
Proof.
  induction 1 as [|a l [z Hz] _ (I1 & I2 & I3)]; [repeat split; constructor|].
  cbn [Monitor.stringify]. rewrite Hz. cbn [fst snd length].
  split; [exact I1|]. split; [now rewrite I2|].
  constructor; [now exists z|exact I3].
Qed.

(** X25: [save_monitoring_data] turns the timestamp of every alert into a
    string inside the monitor's own alerts, because its copy of the data is
    shallow.  Once it has done so on a list that is not empty, no later step
    of the monitoring loop removes an alert or marks one as notified:
    [check_alerts] fails on the first timestamp and changes nothing, so the
    list can only grow, and no later [save_monitoring_data] reaches the
    writing of the file. *)
Theorem X25_saved_alerts_are_never_checked_again :
  forall (m : Monitor.t) (calls : list Monitor.call),
    Monitor.alerts m <> [] ->
    Forall Monitor.dated (Monitor.alerts m) ->
    let m1 := fst (Monitor.save_monitoring_data true m) in
    let m2 := fold_left Monitor.perform calls m1 in
    length (Monitor.alerts m1) = length (Monitor.alerts m) /\
    Forall (fun a => exists z, Monitor.timestamp a = Monitor.IsoString z)
           (Monitor.alerts m1) /\
    Monitor.extends (Monitor.alerts m1) (Monitor.alerts m2) /\
    (forall clock, Monitor.check_alerts clock m2 = m2) /\
    (forall dir_ok, snd (Monitor.save_monitoring_data dir_ok m2) = false).
Proof.
  intros m calls Hne Hdated m1 m2.
  destruct (stringify_dated (Monitor.alerts m) Hdated) as (S1 & S2 & S3).
  assert (Halerts : Monitor.alerts m1 = fst (Monitor.stringify (Monitor.alerts m))).
  { unfold m1, Monitor.save_monitoring_data. cbn [negb].
    rewrite S1. reflexivity. }
  assert (Hstuck : Monitor.stuck m1).
  { unfold Monitor.stuck. rewrite Halerts.
    destruct (fst (Monitor.stringify (Monitor.alerts m))) as [|a rest] eqn:Hl.
    - destruct (Monitor.alerts m); [congruence|discriminate].
    - inversion S3 as [|? ? [z Hz] _]; subst. now exists a, rest, z. }
  destruct (stuck_run calls m1 Hstuck) as [R1 R2]. fold m2 in R1, R2.
  rewrite Halerts at 1 2.
  split; [exact S2|]. split; [exact S3|]. split; [exact R2|]. split.
  - intros clock. now apply stuck_check_alerts.
  - intros dir_ok. now apply stuck_save.
Qed.

Lemma X25_saved_alerts_are_never_checked_again_witness :
  let m1 := fst (Monitor.save_monitoring_data true sample_monitor) in
  let m2 := fold_left Monitor.perform
              [Monitor.CheckAlerts 99999; Monitor.SaveMonitoringData true] m1 in
  length (Monitor.alerts m1) = length (Monitor.alerts sample_monitor) /\
  Forall (fun a => exists z, Monitor.timestamp a = Monitor.IsoString z)
         (Monitor.alerts m1) /\
  Monitor.extends (Monitor.alerts m1) (Monitor.alerts m2) /\
  (forall clock, Monitor.check_alerts clock m2 = m2) /\
  (forall dir_ok, snd (Monitor.save_monitoring_data dir_ok m2) = false).
Proof.
  apply (X25_saved_alerts_are_never_checked_again sample_monitor
           [Monitor.CheckAlerts 99999; Monitor.SaveMonitoringData true]).
  - discriminate.
  - constructor; [now exists 1000%Z|constructor].
Defined.

(** * Exits of the live engine *)

(** X26: in the live engine too an exit level comes before the signals.
    When the engine holds a position and the last candle closes at or below
    the stop-loss price or at or above the take-profit price of its entry,
    [check_trading_signals] does what [execute_sell_trade] does at that close,
    whatever the buy and sell signals of that candle are. *)
Theorem X26_live_exit_comes_before_signals :
  forall (calls : list Live.call) (libs : Libs) (ex : Exchange)
         (data : list Candle) (r : Row) (entry : Q),
    let e := Live.after calls in
    let df := generate_signals (calculate_indicators libs data) in
    fetch_ohlcv ex = Some data ->
    (Config.LONG_MA_PERIOD <= length data)%nat ->
    nth_error (rows df) (length (rows df) - 1) = Some r ->
    Strategy.entry_price (Live.strategy e) = Some entry ->
    close (ohlcv r) <= stop_loss_price entry \/
    take_profit_price entry <= close (ohlcv r) ->
    Live.check_trading_signals libs ex e
    = Live.execute_sell_trade ex e (close (ohlcv r)).
Proof.
  intros calls libs ex data r entry e df Hdata Hlen Hrow Hentry Hhit.
  pose proof (consistent_after calls) as Hc. fold e in Hc.
  destruct (consistent_cases e Hc) as [(_ & _ & He & _) | (Hh & entry' & Hs & _)];
    [congruence|].
  assert (entry' = entry) by (rewrite Hs in Hentry; now injection Hentry).
  subst entry'.
  unfold Live.check_trading_signals. rewrite Hdata.
  apply Nat.ltb_ge in Hlen. rewrite Hlen. cbv zeta. fold df. rewrite Hrow.
  rewrite Hh, Hs.
  unfold Strategy.check_stop_loss_take_profit, Strategy.update_position,
    Strategy.compare_levels.
  cbn [Strategy.position Strategy.stop_loss_price Strategy.take_profit_price
       String.eqb Ascii.eqb Bool.eqb].
  rewrite long_levels. cbn [fst snd].
  destruct (Qleb (close (ohlcv r)) (stop_loss_price entry)) eqn:Hsl;
    [reflexivity|].
  destruct (Qgeb (close (ohlcv r)) (take_profit_price entry)) eqn:Htp;
    [reflexivity|].
  exfalso. destruct Hhit as [H | H].
  - apply Qleb_le in H. congruence.
  - apply Qgeb_ge in H. congruence.
Qed.

Lemma X26_live_exit_comes_before_signals_witness :
  let e := Live.after [Live.ExecuteBuyTrade sample_exchange 100] in
  Live.check_trading_signals sample_libs sample_exchange_with_candles e
  = Live.execute_sell_trade sample_exchange_with_candles e 97.
Proof.
  apply (X26_live_exit_comes_before_signals
           [Live.ExecuteBuyTrade sample_exchange 100] sample_libs
           sample_exchange_with_candles (map ohlcv stop_loss_rows)
           (quiet_row 32 97 101 100 1 0) 100).
  - reflexivity.
  - vm_compute. lia.
  - reflexivity.
  - reflexivity.
  - left. apply Qle_bool_iff. reflexivity.
Defined.
